(** * Retail Sales Forecasting App: feature-vector assembly and inference gate

    A shallow embedding of [app.py], a Streamlit script.  Each rerun of the
    script loads two cached resources, reads the widgets, and, when the
    button is pressed, assembles a one-row data frame and hands it to the
    model.  The embedding keeps the script's shape: Python values and
    exceptions, the pandas operations the script calls, Streamlit's elements
    and caching decorators, and then the script itself.

    A run is read back from what it leaves: the elements it rendered, the
    frames it handed to the model, and the exception that ended it, if any.
    Layout containers (columns, expander, spinner) and the page configuration
    render nothing of their own and are left out; an input widget stands for
    the value it hands back.  Floats are only carried from a widget to the
    frame, never computed with.  Integers are unbounded, as Python's are;
    the one place where their size matters is [st.dataframe]. *)

From Stdlib Require Import ZArith String List Bool Lia PrimFloat.
From Stdlib Require Import Sorted Permutation.
Import ListNotations.
Open Scope string_scope.
Open Scope Z_scope.

(** ** Python values, truthiness and exceptions *)

Module Py.

(** The exceptions that the script and the calls it makes can raise. *)
Inductive exn : Type :=
| FileNotFoundError
| PermissionError
| NameError (name : string)
| KeyError (key : string)
| IndexError
| EmptyDataError
| ParserError
| UnpicklingError
| StreamlitDataframeConversionError.

(** [except FileNotFoundError] matches the class itself; none of the other
    exceptions above derives from it. *)
Definition is_FileNotFoundError (e : exn) : bool :=
  match e with
  | FileNotFoundError => true
  | _ => false
  end.

(** The scalars that end up in the script's dictionary. *)
Inductive value : Type :=
| VNone
| VBool (b : bool)
| VInt (z : Z)
| VFloat (f : float)
| VStr (s : string).

(** Python's truth-value protocol, for the types the script tests. *)
Class Truthy (A : Type) := truthy : A -> bool.

#[export] Instance truthy_Z : Truthy Z := fun z => negb (z =? 0).
#[export] Instance truthy_bool : Truthy bool := fun b => b.
#[export] Instance truthy_option {A : Type} `{Truthy A} : Truthy (option A) :=
  fun o => match o with
           | None => false
           | Some a => truthy a
           end.

(** The outcome of evaluating a statement or expression. *)
Inductive result (A : Type) : Type :=
| Return (a : A)
| Raise (e : exn).
Arguments Return {A} a.
Arguments Raise {A} e.

(** A [datetime.date]. *)
Record date : Type := mkDate { year : Z; month : Z; day : Z }.

(** A [dict] with string keys, in insertion order. *)
Definition dict : Type := list (string * value).

Fixpoint dict_get (k : string) (d : dict) : option value :=
  match d with
  | [] => None
  | (k', v) :: d' => if String.eqb k k' then Some v else dict_get k d'
  end.

(** What a reader can meet at a fixed path: no file; a file that may not be
    opened; a file whose content the reader cannot make sense of, with the
    exception the reader raises on it; a file with the content it expects. *)
Inductive file_state (A : Type) : Type :=
| Absent
| Unreadable
| Malformed (e : exn)
| Present (content : A).
Arguments Absent {A}.
Arguments Unreadable {A}.
Arguments Malformed {A} e.
Arguments Present {A} content.

(** Reading a file: [open] raises [FileNotFoundError] on a missing path and
    [PermissionError] on one that may not be read; the parser raises its own
    exception on content it does not understand. *)
Definition read_file {A : Type} (f : file_state A) : result A :=
  match f with
  | Absent => Raise FileNotFoundError
  | Unreadable => Raise PermissionError
  | Malformed e => Raise e
  | Present a => Return a
  end.

End Py.
Export Py.

(** ** pandas: the reference table and the one-row frame *)

Module Pandas.

(** A row of [stores data-set.csv], for a table whose Store and Size columns
    hold integers, of any size. *)
Record store_row : Type := mkRow { Store : Z; Type_ : string; Size : Z }.

(** The reference table, in file order. *)
Definition DataFrame : Type := list store_row.

(** A frame of one row: column labels with that row's cells, in column
    order.  This is what [model.predict] receives. *)
Definition frame : Type := list (string * value).

(** [Series.unique()]: distinct values in order of first appearance. *)
Fixpoint unique_from (seen : list Z) (l : list Z) : list Z :=
  match l with
  | [] => []
  | x :: l' =>
      if existsb (Z.eqb x) seen then unique_from seen l'
      else x :: unique_from (x :: seen) l'
  end.

Definition unique (l : list Z) : list Z := unique_from [] l.

(** [sorted(...)], ascending. *)
Fixpoint insert_sorted (x : Z) (l : list Z) : list Z :=
  match l with
  | [] => [x]
  | y :: l' => if x <=? y then x :: l else y :: insert_sorted x l'
  end.

Fixpoint sorted (l : list Z) : list Z :=
  match l with
  | [] => []
  | x :: l' => insert_sorted x (sorted l')
  end.

(** [df[df['Store'] == store]]: the rows whose store number equals the
    selected value; no integer equals [None]. *)
Definition rows_of_store (store : option Z) (df : DataFrame) : DataFrame :=
  filter (fun r => match store with
                   | Some s => Store r =? s
                   | None => false
                   end) df.

(** [.iloc[0]]: the first row; [IndexError] on an empty selection. *)
Definition iloc0 (df : DataFrame) : result store_row :=
  match df with
  | [] => Raise IndexError
  | r :: _ => Return r
  end.

(** [pd.DataFrame([d])[cols]]: the one-row frame built from the dictionary,
    re-indexed to the listed columns; a missing label is a [KeyError]. *)
Fixpoint select_columns (cols : list string) (d : dict) : result frame :=
  match cols with
  | [] => Return []
  | c :: cs =>
      match dict_get c d with
      | None => Raise (KeyError c)
      | Some v =>
          match select_columns cs d with
          | Return f => Return ((c, v) :: f)
          | Raise e => Raise e
          end
      end
  end.

(** Reading a cell of a one-row frame by its column label. *)
Definition cell (c : string) (f : frame) : option value := dict_get c f.

End Pandas.
Export Pandas.

(** ** Streamlit: elements, the script monad, widgets and caching *)

Module St.

(** The object that [joblib.load] returns.  Only its [predict] method is
    used; it reads the frame it is given and yields the prediction for the
    frame's single row. *)
Record model : Type := mkModel { predict : frame -> float }.

(** What a run of the script leaves behind, in program order: the elements
    it renders and the calls it makes to the model. *)
Inductive element : Type :=
| Title (text : string)
| Write (text : string)
| Markdown (text : string)
| Header (text : string)
| Subheader (text : string)
| Info (text : string)
| InfoStoreDetails (store_type : string) (store_size : Z)
| Error (text : string)
| Success (text : string)
| Metric (label : string) (v : float)
| Dataframe (df : frame)
| ModelPredict (df : frame).

(** A script fragment: the elements it produced, and how it ended. *)
Definition UI (A : Type) : Type := list element * result A.

Definition ret {A : Type} (a : A) : UI A := ([], Return a).

Definition bind {A B : Type} (m : UI A) (k : A -> UI B) : UI B :=
  match m with
  | (out, Raise e) => (out, Raise e)
  | (out, Return a) => let (out', r) := k a in ((out ++ out')%list, r)
  end.

Definition emit (e : element) : UI unit := ([e], Return tt).

Definition lift {A : Type} (r : result A) : UI A := ([], r).

(** [try: body except <class>: handler]. *)
Definition try_except {A : Type}
    (body : UI A) (catches : exn -> bool) (handler : UI A) : UI A :=
  match body with
  | (out, Raise e) =>
      if catches e then let (out', r) := handler in ((out ++ out')%list, r)
      else (out, Raise e)
  | (out, Return a) => (out, Return a)
  end.

(** [st.dataframe] hands the frame to Arrow, which has signed and unsigned
    64-bit integer columns and nothing wider: an integer outside both ranges
    cannot be converted. *)
Definition arrow_int (z : Z) : bool := (- 2 ^ 63 <=? z) && (z <? 2 ^ 64).

Definition arrow_value (v : value) : bool :=
  match v with
  | VInt z => arrow_int z
  | _ => true
  end.

Definition arrow_frame (df : frame) : bool :=
  forallb (fun cell => arrow_value (snd cell)) df.

(** [st.dataframe(df)]: the frame is rendered, or the conversion fails and
    nothing is rendered. *)
Definition st_dataframe (df : frame) : UI unit :=
  if arrow_frame df then emit (Dataframe df)
  else lift (Raise StreamlitDataframeConversionError).

(** Reading a local variable that some branch may have left unbound. *)
Definition read_var {A : Type} (name : string) (binding : option A) : UI A :=
  match binding with
  | Some a => ret a
  | None => lift (Raise (NameError name))
  end.

(** [st.selectbox(label, options)]: the option the user picked; with no
    usable pick the first option; [None] when there is nothing to pick. *)
Definition selectbox {A : Type} (options : list A) (choice : nat) : option A :=
  match nth_error options choice with
  | Some x => Some x
  | None => hd_error options
  end.

(** An entry of [st.cache_resource] / [st.cache_data] for a function without
    arguments: the value it returned and the elements it rendered. *)
Definition cache_entry (A : Type) : Type := option (list element * A).

(** Calling a cached function.  A hit replays the stored elements and hands
    back the stored value without running the body; a miss runs the body and
    stores what it returned; a body that raises stores nothing. *)
Definition cached {A : Type} (body : UI A) (entry : cache_entry A)
  : cache_entry A * UI A :=
  match entry with
  | Some (out, a) => (entry, (out, Return a))
  | None =>
      match body with
      | (out, Return a) => (Some (out, a), (out, Return a))
      | (out, Raise e) => (None, (out, Raise e))
      end
  end.

(** Reading a run back: the frames handed to [model.predict], the frames
    shown with [st.dataframe], and the error boxes, each in program order. *)
Fixpoint predict_calls (out : list element) : list frame :=
  match out with
  | [] => []
  | ModelPredict df :: out' => df :: predict_calls out'
  | _ :: out' => predict_calls out'
  end.

Fixpoint shown_frames (out : list element) : list frame :=
  match out with
  | [] => []
  | Dataframe df :: out' => df :: shown_frames out'
  | _ :: out' => shown_frames out'
  end.

Fixpoint errors (out : list element) : list string :=
  match out with
  | [] => []
  | Error text :: out' => text :: errors out'
  | _ :: out' => errors out'
  end.

End St.
Export St.

Declare Scope ui_scope.
Delimit Scope ui_scope with ui.
Notation "x <- c ;; k" := (bind c (fun x => k))
  (at level 61, c at next level, right associativity) : ui_scope.
Notation "c ;; k" := (bind c (fun _ => k))
  (at level 61, right associativity) : ui_scope.
Open Scope ui_scope.

(** ** The script *)

Module App.

(** The files at the two fixed paths. *)
Record files : Type := mkFiles {
  model_file : file_state model;     (* sales_forecast_model.joblib *)
  stores_file : file_state DataFrame (* stores data-set.csv *)
}.

(** The process-wide caches behind the two decorators. *)
Record caches : Type := mkCaches {
  model_cache : cache_entry (option model);
  data_cache : cache_entry (option DataFrame)
}.

Definition empty_caches : caches :=
  {| model_cache := None; data_cache := None |}.

(** What the widgets hand back on one rerun. *)
Record inputs : Type := mkInputs {
  in_store_choice : nat;    (* pick in the store select box *)
  in_store_number : Z;      (* the store number box, shown without a table *)
  in_dept : Z;
  in_date : date;
  in_is_holiday : nat;      (* pick in the [True, False] select box *)
  in_temperature : float;
  in_fuel_price : float;
  in_cpi : float;
  in_unemployment : float;
  in_markdown1 : float;
  in_markdown2 : float;
  in_markdown3 : float;
  in_markdown4 : float;
  in_markdown5 : float;
  in_button : bool          (* the predict button was pressed *)
}.

Definition model_missing_msg : string :=
  "Model file 'sales_forecast_model.joblib' not found. Please ensure it's in the same directory.".

Definition stores_missing_msg : string :=
  "Store data 'stores data-set.csv' not found. Please ensure it's in the same directory.".

Definition cannot_predict_msg : string :=
  "Cannot predict because required model or data files are missing.".

(** The body of [load_model]. *)
Definition load_model (fs : files) : UI (option model) :=
  try_except
    (model <- lift (read_file (model_file fs)) ;;
     ret (Some model))
    is_FileNotFoundError
    (emit (Error model_missing_msg) ;;
     ret None).

(** The body of [load_store_data]. *)
Definition load_store_data (fs : files) : UI (option DataFrame) :=
  try_except
    (stores_df <- lift (read_file (stores_file fs)) ;;
     ret (Some stores_df))
    is_FileNotFoundError
    (emit (Error stores_missing_msg) ;;
     ret None).

(** The script's variables that the first column binds. *)
Record locals : Type := mkLocals {
  store : value;
  store_size : option Z;       (* [None]: the name is unbound *)
  store_type : option string   (* [None]: the name is unbound *)
}.

Definition store_value (store : option Z) : value :=
  match store with
  | Some s => VInt s
  | None => VNone
  end.

(** [sorted(stores_df['Store'].unique())]. *)
Definition valid_stores (stores_df : DataFrame) : list Z :=
  sorted (unique (map Store stores_df)).

(** The store part of "1. Core Information": with a table, a select box
    over its store numbers and a look-up of the picked store; without one,
    a number box and the placeholders. *)
Definition core_information (stores_df : option DataFrame) (inp : inputs)
  : UI locals :=
  match stores_df with
  | Some df =>
      let store := selectbox (valid_stores df) (in_store_choice inp) in
      if truthy store then
        store_details <- lift (iloc0 (rows_of_store store df)) ;;
        let store_size := Size store_details in
        let store_type := Type_ store_details in
        emit (InfoStoreDetails store_type store_size) ;;
        ret {| store := store_value store;
               store_size := Some store_size;
               store_type := Some store_type |}
      else
        ret {| store := store_value store;
               store_size := None;
               store_type := None |}
  | None =>
      ret {| store := VInt (in_store_number inp);
             store_size := Some 150000;
             store_type := Some "A" |}
  end.

(** [1 if c else 0]. *)
Definition one_if (c : bool) : Z := if c then 1 else 0.

(** The dictionary display: its expressions are evaluated left to right,
    and reading an unbound name raises [NameError]. *)
Definition input_data (l : locals) (inp : inputs) : UI dict :=
  let is_holiday := selectbox [true; false] (in_is_holiday inp) in
  let date := in_date inp in
  size <- read_var "store_size" (store_size l) ;;
  type_a <- read_var "store_type" (store_type l) ;;
  type_b <- read_var "store_type" (store_type l) ;;
  type_c <- read_var "store_type" (store_type l) ;;
  ret [ ("Store", store l); ("Dept", VInt (in_dept inp));
        ("IsHoliday", VInt (one_if (truthy is_holiday)));
        ("Size", VInt size); ("Temperature", VFloat (in_temperature inp));
        ("Fuel_Price", VFloat (in_fuel_price inp));
        ("MarkDown1", VFloat (in_markdown1 inp));
        ("MarkDown2", VFloat (in_markdown2 inp));
        ("MarkDown3", VFloat (in_markdown3 inp));
        ("MarkDown4", VFloat (in_markdown4 inp));
        ("MarkDown5", VFloat (in_markdown5 inp));
        ("CPI", VFloat (in_cpi inp));
        ("Unemployment", VFloat (in_unemployment inp));
        ("Month", VInt (month date)); ("Year", VInt (year date));
        ("Type_A", VInt (one_if (String.eqb type_a "A")));
        ("Type_B", VInt (one_if (String.eqb type_b "B")));
        ("Type_C", VInt (one_if (String.eqb type_c "C"))) ].

Definition column_order : list string :=
  [ "Store"; "Dept"; "IsHoliday"; "Size"; "Temperature"; "Fuel_Price";
    "MarkDown1"; "MarkDown2"; "MarkDown3"; "MarkDown4"; "MarkDown5";
    "CPI"; "Unemployment"; "Month"; "Year"; "Type_A"; "Type_B"; "Type_C" ].

(** [pd.DataFrame([input_data])[column_order]]. *)
Definition input_df (l : locals) (inp : inputs) : UI frame :=
  d <- input_data l inp ;;
  lift (select_columns column_order d).

(** The body of [if st.button(...)]. *)
Definition on_predict (model : option model) (stores_df : option DataFrame)
    (l : locals) (inp : inputs) : UI unit :=
  match model, stores_df with
  | Some m, Some _ =>
      df <- input_df l inp ;;
      emit (ModelPredict df) ;;
      let prediction := predict m df in
      emit (Subheader "Prediction Result") ;;
      emit (Metric "Predicted Weekly Sales" prediction) ;;
      st_dataframe df ;;
      emit (Success "Prediction complete!")
  | _, _ => emit (Error cannot_predict_msg)
  end.

Definition footer_msg : string :=
  "This app uses a pre-trained Random Forest model. The accuracy is based on historical data and should be used as a strategic planning tool.".

(** The script from the header on, given what the two loaders returned.
    The two select boxes pick from their options; every other input widget
    hands back its value. *)
Definition main (model : option model) (stores_df : option DataFrame)
    (inp : inputs) : UI unit :=
  emit (Title "🛒 Retail Sales Forecasting App") ;;
  emit (Write "This application uses a Random Forest model to predict **Weekly Sales**. ") ;;
  emit (Markdown "---") ;;
  emit (Header "1. Core Information") ;;
  l <- core_information stores_df inp ;;
  emit (Header "2. External Factors (Optional)") ;;
  emit (Subheader "Economic Factors") ;;
  emit (Subheader "Promotional Markdowns ($)") ;;
  emit (Markdown "---") ;;
  (if in_button inp then on_predict model stores_df l inp else ret tt) ;;
  emit (Markdown "---") ;;
  emit (Info footer_msg).

(** One rerun of the whole script: the two cached loads, then the rest.
    An exception that a loader lets through ends the run there. *)
Definition script (fs : files) (inp : inputs) (c : caches)
  : caches * UI unit :=
  let (mc, r_model) := cached (load_model fs) (model_cache c) in
  match r_model with
  | (out1, Raise e) =>
      ({| model_cache := mc; data_cache := data_cache c |}, (out1, Raise e))
  | (out1, Return model) =>
      let (dc, r_data) := cached (load_store_data fs) (data_cache c) in
      let c' := {| model_cache := mc; data_cache := dc |} in
      match r_data with
      | (out2, Raise e) => (c', ((out1 ++ out2)%list, Raise e))
      | (out2, Return stores_df) =>
          let (out3, r) := main model stores_df inp in
          (c', ((out1 ++ out2 ++ out3)%list, r))
      end
  end.

(** What a rerun rendered, how it ended, and the caches it left. *)
Definition script_out (fs : files) (inp : inputs) (c : caches) : list element :=
  fst (snd (script fs inp c)).

Definition script_result (fs : files) (inp : inputs) (c : caches) : result unit :=
  snd (snd (script fs inp c)).

Definition script_caches (fs : files) (inp : inputs) (c : caches) : caches :=
  fst (script fs inp c).

(** Scenario A of the test plan: department 1, 2 December 2022, no holiday
    week (the second option of the box), sliders and markdowns untouched. *)
Definition scenario_A (store_choice : nat) (store_number : Z) : inputs :=
  {| in_store_choice := store_choice;
     in_store_number := store_number;
     in_dept := 1;
     in_date := {| year := 2022; month := 12; day := 2 |};
     in_is_holiday := 1;
     in_temperature := 65.0;
     in_fuel_price := 3.50;
     in_cpi := 195.0;
     in_unemployment := 7.5;
     in_markdown1 := 0.0;
     in_markdown2 := 0.0;
     in_markdown3 := 0.0;
     in_markdown4 := 0.0;
     in_markdown5 := 0.0;
     in_button := true |}.

(** A small instance to run the script on: a few rows of the store table,
    a constant model, and both files in place. *)
Definition sample_stores : DataFrame :=
  [ {| Store := 1; Type_ := "A"; Size := 151315 |};
    {| Store := 2; Type_ := "A"; Size := 202307 |};
    {| Store := 3; Type_ := "B"; Size := 37392 |};
    {| Store := 30; Type_ := "C"; Size := 42988 |} ].

Definition sample_model : model := {| predict := fun _ => 15000.0%float |}.

Definition sample_files : files :=
  {| model_file := Present sample_model; stores_file := Present sample_stores |}.

(** Both files exist but may not be read. *)
Definition unreadable_files : files :=
  {| model_file := Unreadable; stores_file := Unreadable |}.

(** The cache states a process can be in: empty at start, and then whatever
    a rerun leaves, with any files on disk and any widget values. *)
Inductive reachable : caches -> Prop :=
| reach_start : reachable empty_caches
| reach_rerun (c : caches) (fs : files) (inp : inputs) :
    reachable c -> reachable (fst (script fs inp c)).

(** The page as it first comes up: every widget at its default, the button
    not pressed. *)
Definition untouched : inputs :=
  {| in_store_choice := 0;
     in_store_number := 1;
     in_dept := 1;
     in_date := {| year := 2022; month := 12; day := 2 |};
     in_is_holiday := 0;
     in_temperature := 65.0;
     in_fuel_price := 3.50;
     in_cpi := 195.0;
     in_unemployment := 7.5;
     in_markdown1 := 0.0;
     in_markdown2 := 0.0;
     in_markdown3 := 0.0;
     in_markdown4 := 0.0;
     in_markdown5 := 0.0;
     in_button := false |}.

(** A process going through several reruns, each with the files then on disk
    and the widget values of that moment: the caches it ends with. *)
Fixpoint reruns (steps : list (files * inputs)) (c : caches) : caches :=
  match steps with
  | [] => c
  | (fs, inp) :: steps' => reruns steps' (script_caches fs inp c)
  end.

(** What a loader can have stored: nothing yet, the [None] it returned
    together with its error box, or a handle and no element. *)
Definition loader_entry {A : Type} (msg : string)
    (entry : cache_entry (option A)) : Prop :=
  match entry with
  | None => True
  | Some (out, None) => out = [Error msg]
  | Some (out, Some _) => out = []
  end.

Definition caches_inv (c : caches) : Prop :=
  loader_entry model_missing_msg (model_cache c) /\
  loader_entry stores_missing_msg (data_cache c).

End App.
Export App.

(** * Properties *)

(** ** The pandas and Streamlit operations *)

Section Operations.

Lemma predict_calls_app (out out' : list element) :
  predict_calls (out ++ out') = (predict_calls out ++ predict_calls out')%list.
Proof.
  induction out as [|e out IH]; simpl; [reflexivity|].
  destruct e; simpl; rewrite IH; reflexivity.
Qed.

Lemma shown_frames_app (out out' : list element) :
  shown_frames (out ++ out') = (shown_frames out ++ shown_frames out')%list.
Proof.
  induction out as [|e out IH]; simpl; [reflexivity|].
  destruct e; simpl; rewrite IH; reflexivity.
Qed.

Lemma In_insert_sorted (x y : Z) (l : list Z) :
  In y (insert_sorted x l) <-> y = x \/ In y l.
Proof.
  induction l as [|z l IH]; simpl.
  - intuition.
  - destruct (x <=? z); simpl; rewrite ?IH; intuition.
Qed.

Lemma In_sorted (y : Z) (l : list Z) : In y (sorted l) <-> In y l.
Proof.
  induction l as [|x l IH]; simpl; [reflexivity|].
  rewrite In_insert_sorted, IH. intuition.
Qed.

Lemma In_unique_from (y : Z) (l seen : list Z) :
  In y (unique_from seen l) <-> In y l /\ ~ In y seen.
Proof.
  revert seen. induction l as [|x l IH]; intros seen; simpl.
  - intuition.
  - destruct (existsb (Z.eqb x) seen) eqn:E.
    + apply existsb_exists in E. destruct E as [z [Hz Hxz]].
      apply Z.eqb_eq in Hxz. subst z. rewrite IH.
      split; [intuition|]. intros [[->|H] Hn]; [contradiction|auto].
    + assert (Hx : ~ In x seen).
      { intros Hin. apply Bool.not_true_iff_false in E. apply E.
        apply existsb_exists. exists x. split; [exact Hin|apply Z.eqb_refl]. }
      simpl. rewrite IH. simpl. split.
      * intros [->|[H Hn]]; [auto|]. split; [auto|]. intros Hy. apply Hn; auto.
      * intros [[->|H] Hn]; [auto|].
        destruct (Z.eq_dec x y) as [->|Hxy]; [auto|].
        right. split; [exact H|]. intros [Heq|Hs]; [exact (Hxy Heq)|exact (Hn Hs)].
Qed.

Lemma In_valid_stores (s : Z) (df : DataFrame) :
  In s (valid_stores df) <-> In s (map Store df).
Proof.
  unfold valid_stores, unique. rewrite In_sorted, In_unique_from.
  simpl. intuition.
Qed.

Lemma selectbox_In {A : Type} (options : list A) (choice : nat) (x : A) :
  selectbox options choice = Some x -> In x options.
Proof.
  unfold selectbox. destruct (nth_error options choice) as [y|] eqn:E.
  - intros [= ->]. eapply nth_error_In; eauto.
  - destruct options; simpl; [discriminate|]. intros [= ->]. auto.
Qed.

(** Every listed option can be picked. *)
Lemma selectbox_pick {A : Type} (options : list A) (x : A) :
  In x options -> exists choice, selectbox options choice = Some x.
Proof.
  intros H. apply In_nth_error in H. destruct H as [n Hn].
  exists n. unfold selectbox. rewrite Hn. reflexivity.
Qed.

Lemma iloc0_rows_of_store (s : Z) (df : DataFrame) :
  iloc0 (rows_of_store (Some s) df) =
  match find (fun r => Store r =? s) df with
  | Some r => Return r
  | None => Raise IndexError
  end.
Proof.
  unfold rows_of_store. induction df as [|r df IH]; simpl; [reflexivity|].
  destruct (Store r =? s); simpl; [reflexivity|exact IH].
Qed.

Lemma find_store_In (s : Z) (df : DataFrame) :
  In s (map Store df) -> exists r, find (fun r => Store r =? s) df = Some r.
Proof.
  induction df as [|r df IH]; simpl; [contradiction|].
  intros [H|H].
  - exists r. rewrite H, Z.eqb_refl. reflexivity.
  - destruct (Store r =? s); [eauto|auto].
Qed.

(** The first row that [find] returns is a row of the table with the store
    number asked for, and the only such row when store numbers do not
    repeat. *)
Lemma find_store_row (s : Z) (df : DataFrame) (r : store_row) :
  find (fun r => Store r =? s) df = Some r ->
  In r df /\ Store r = s /\
  (NoDup (map Store df) -> forall r', In r' df -> Store r' = s -> r' = r).
Proof.
  induction df as [|x df IH]; simpl; [discriminate|].
  destruct (Store x =? s) eqn:E.
  - intros [= ->]. apply Z.eqb_eq in E. repeat split; auto.
    intros Hnd r' [->|Hin] Hs; [reflexivity|].
    inversion Hnd as [|? ? Hnotin _]; subst.
    exfalso. apply Hnotin. rewrite <- Hs. apply in_map. exact Hin.
  - intros Hf. destruct (IH Hf) as (Hin & Hs & Huniq).
    apply Z.eqb_neq in E. repeat split; auto.
    intros Hnd r' [->|Hin'] Hs'; [contradiction|].
    inversion Hnd; subst. auto.
Qed.

(** The holiday box always hands back one of its two options. *)
Lemma holiday_box (choice : nat) :
  exists flag, selectbox [true; false] choice = Some flag.
Proof.
  destruct choice as [|[|[|n]]]; eexists; reflexivity.
Qed.

End Operations.

(** ** Assembling the frame *)

Section Assembly.

Variable inp : inputs.

(** With both names bound the assembly raises nothing, renders nothing and
    yields these eighteen cells. *)
Lemma input_df_bound (st : value) (sz : Z) (ty : string) :
  input_df {| store := st; store_size := Some sz; store_type := Some ty |} inp =
  ([], Return
     [ ("Store", st); ("Dept", VInt (in_dept inp));
       ("IsHoliday",
        VInt (one_if (truthy (selectbox [true; false] (in_is_holiday inp)))));
       ("Size", VInt sz); ("Temperature", VFloat (in_temperature inp));
       ("Fuel_Price", VFloat (in_fuel_price inp));
       ("MarkDown1", VFloat (in_markdown1 inp));
       ("MarkDown2", VFloat (in_markdown2 inp));
       ("MarkDown3", VFloat (in_markdown3 inp));
       ("MarkDown4", VFloat (in_markdown4 inp));
       ("MarkDown5", VFloat (in_markdown5 inp));
       ("CPI", VFloat (in_cpi inp));
       ("Unemployment", VFloat (in_unemployment inp));
       ("Month", VInt (month (in_date inp)));
       ("Year", VInt (year (in_date inp)));
       ("Type_A", VInt (one_if (String.eqb ty "A")));
       ("Type_B", VInt (one_if (String.eqb ty "B")));
       ("Type_C", VInt (one_if (String.eqb ty "C"))) ]).
Proof. reflexivity. Qed.

(** An unbound [store_size] stops the assembly at its first use. *)
Lemma input_df_unbound (st : value) (ty : option string) :
  input_df {| store := st; store_size := None; store_type := ty |} inp =
  ([], Raise (NameError "store_size")).
Proof. reflexivity. Qed.

(** The store column of the first section, case by case. *)
Lemma core_information_table (df : DataFrame) :
  core_information (Some df) inp =
  match selectbox (valid_stores df) (in_store_choice inp) with
  | None => ([], Return {| store := VNone; store_size := None; store_type := None |})
  | Some s =>
      if s =? 0 then
        ([], Return {| store := VInt s; store_size := None; store_type := None |})
      else
        match find (fun r => Store r =? s) df with
        | Some r =>
            ([InfoStoreDetails (Type_ r) (Size r)],
             Return {| store := VInt s;
                       store_size := Some (Size r);
                       store_type := Some (Type_ r) |})
        | None => ([], Raise IndexError)
        end
  end.
Proof.
  unfold core_information.
  destruct (selectbox (valid_stores df) (in_store_choice inp)) as [s|];
    [|reflexivity].
  unfold truthy, truthy_option, truthy, truthy_Z.
  destruct (s =? 0); simpl; [reflexivity|].
  rewrite iloc0_rows_of_store.
  destruct (find (fun r => Store r =? s) df); reflexivity.
Qed.

(** A picked store is a store of the table, so the look-up finds its row. *)
Lemma picked_store_found (df : DataFrame) (s : Z) :
  selectbox (valid_stores df) (in_store_choice inp) = Some s ->
  exists r, find (fun r => Store r =? s) df = Some r.
Proof.
  intros H. apply selectbox_In in H. apply In_valid_stores in H.
  apply find_store_In. exact H.
Qed.

End Assembly.

(** ** One rerun, case by case *)

Section Runs.

Variables (m : model) (df : DataFrame) (inp : inputs).

(** The button handler with both resources loaded and the frame assembled:
    the model is called, the result rendered, and then the frame is shown
    and the run goes on, or the conversion fails and the run ends there. *)
Lemma on_predict_loaded (l : locals) (v : frame) :
  input_df l inp = ([], Return v) ->
  on_predict (Some m) (Some df) l inp =
  if arrow_frame v then
    ([ ModelPredict v; Subheader "Prediction Result";
       Metric "Predicted Weekly Sales" (predict m v);
       Dataframe v; Success "Prediction complete!" ], Return tt)
  else
    ([ ModelPredict v; Subheader "Prediction Result";
       Metric "Predicted Weekly Sales" (predict m v) ],
     Raise StreamlitDataframeConversionError).
Proof.
  intros H. unfold on_predict, st_dataframe. rewrite H.
  cbn [bind emit ret lift app].
  destruct (arrow_frame v); reflexivity.
Qed.

(** The run that reaches the model: both resources loaded, the button
    pressed, a non-zero store picked. *)
Lemma main_predicts (s : Z) (r : store_row) (v : frame) :
  in_button inp = true ->
  selectbox (valid_stores df) (in_store_choice inp) = Some s ->
  s <> 0 ->
  find (fun r => Store r =? s) df = Some r ->
  input_df {| store := VInt s; store_size := Some (Size r);
              store_type := Some (Type_ r) |} inp = ([], Return v) ->
  main (Some m) (Some df) inp =
  if arrow_frame v then
    ([ Title "🛒 Retail Sales Forecasting App";
       Write "This application uses a Random Forest model to predict **Weekly Sales**. ";
       Markdown "---"; Header "1. Core Information";
       InfoStoreDetails (Type_ r) (Size r);
       Header "2. External Factors (Optional)";
       Subheader "Economic Factors"; Subheader "Promotional Markdowns ($)";
       Markdown "---";
       ModelPredict v;
       Subheader "Prediction Result";
       Metric "Predicted Weekly Sales" (predict m v);
       Dataframe v;
       Success "Prediction complete!";
       Markdown "---"; Info footer_msg ], Return tt)
  else
    ([ Title "🛒 Retail Sales Forecasting App";
       Write "This application uses a Random Forest model to predict **Weekly Sales**. ";
       Markdown "---"; Header "1. Core Information";
       InfoStoreDetails (Type_ r) (Size r);
       Header "2. External Factors (Optional)";
       Subheader "Economic Factors"; Subheader "Promotional Markdowns ($)";
       Markdown "---";
       ModelPredict v;
       Subheader "Prediction Result";
       Metric "Predicted Weekly Sales" (predict m v) ],
     Raise StreamlitDataframeConversionError).
Proof.
  intros Hb Hs Hnz Hf Hv. unfold main.
  rewrite core_information_table, Hs.
  apply Z.eqb_neq in Hnz. rewrite Hnz, Hf, Hb.
  cbn [bind emit ret lift app].
  rewrite (on_predict_loaded _ v Hv).
  destruct (arrow_frame v); reflexivity.
Qed.

(** Shown or not, the frame is the one and only frame handed to the model. *)
Lemma main_predict_calls (s : Z) (r : store_row) (v : frame) :
  in_button inp = true ->
  selectbox (valid_stores df) (in_store_choice inp) = Some s ->
  s <> 0 ->
  find (fun r => Store r =? s) df = Some r ->
  input_df {| store := VInt s; store_size := Some (Size r);
              store_type := Some (Type_ r) |} inp = ([], Return v) ->
  predict_calls (fst (main (Some m) (Some df) inp)) = [v].
Proof.
  intros Hb Hs Hnz Hf Hv.
  rewrite (main_predicts s r v Hb Hs Hnz Hf Hv).
  destruct (arrow_frame v); reflexivity.
Qed.

End Runs.

Section RunCases.

Variables (model : option St.model) (stores_df : option DataFrame).
Variable inp : inputs.

(** Every run of [main] either hands exactly one frame to the model, which
    takes both resources, the button and a non-zero store picked from the
    table, and then shows that frame and ends normally unless the frame
    cannot be converted; or it neither calls the model nor shows a frame. *)
Lemma main_cases :
  (exists m df s r v,
      model = Some m /\ stores_df = Some df /\ in_button inp = true /\
      selectbox (valid_stores df) (in_store_choice inp) = Some s /\
      s <> 0 /\
      find (fun r => Store r =? s) df = Some r /\
      input_df {| store := VInt s; store_size := Some (Size r);
                  store_type := Some (Type_ r) |} inp = ([], Return v) /\
      predict_calls (fst (main model stores_df inp)) = [v] /\
      shown_frames (fst (main model stores_df inp)) =
        (if arrow_frame v then [v] else []) /\
      snd (main model stores_df inp) =
        (if arrow_frame v then Return tt
         else Raise StreamlitDataframeConversionError))
  \/
  (predict_calls (fst (main model stores_df inp)) = [] /\
   shown_frames (fst (main model stores_df inp)) = []).
Proof.
  destruct stores_df as [df|].
  - destruct (selectbox (valid_stores df) (in_store_choice inp)) as [s|] eqn:Es.
    + destruct (s =? 0) eqn:Ez.
      * right. unfold main. rewrite core_information_table, Es, Ez.
        destruct model, (in_button inp); split; reflexivity.
      * destruct (find (fun r => Store r =? s) df) as [r|] eqn:Ef.
        -- destruct model as [m|], (in_button inp) eqn:Eb;
             try (right; unfold main;
                  rewrite core_information_table, Es, Ez, Ef, ?Eb;
                  split; reflexivity).
           left. apply Z.eqb_neq in Ez.
           eexists m, df, s, r, _.
           rewrite (main_predicts m df inp s r _ Eb Es Ez Ef (input_df_bound _ _ _ _)).
           do 7 (split; [first [assumption | reflexivity]|]).
           destruct (arrow_frame _); repeat split; reflexivity.
        -- right. unfold main. rewrite core_information_table, Es, Ez, Ef.
           split; reflexivity.
    + right. unfold main. rewrite core_information_table, Es.
      destruct model, (in_button inp); split; reflexivity.
  - right. unfold main, core_information.
    destruct model, (in_button inp); split; reflexivity.
Qed.

End RunCases.

(** Without a table the script binds the placeholders (size 150000, type
    "A"), and then no run hands anything to the model. *)
Lemma placeholders_stay_home (model : option St.model) (inp : inputs) :
  core_information None inp =
    ([], Return {| store := VInt (in_store_number inp);
                   store_size := Some 150000;
                   store_type := Some "A" |}) /\
  predict_calls (fst (main model None inp)) = [] /\
  shown_frames (fst (main model None inp)) = [].
Proof.
  split; [reflexivity|].
  destruct (main_cases model None inp) as [H|H]; [|exact H].
  destruct H as (m & df & s & r & v & _ & [=] & _).
Qed.

(** ** The cached loaders *)

Section Loaders.

Variable fs : files.

Lemma load_model_cases :
  load_model fs =
  match model_file fs with
  | Absent => ([Error model_missing_msg], Return None)
  | Unreadable => ([], Raise PermissionError)
  | Malformed e =>
      if is_FileNotFoundError e then ([Error model_missing_msg], Return None)
      else ([], Raise e)
  | Present x => ([], Return (Some x))
  end.
Proof.
  unfold load_model. destruct (model_file fs); reflexivity.
Qed.

Lemma load_store_data_cases :
  load_store_data fs =
  match stores_file fs with
  | Absent => ([Error stores_missing_msg], Return None)
  | Unreadable => ([], Raise PermissionError)
  | Malformed e =>
      if is_FileNotFoundError e then ([Error stores_missing_msg], Return None)
      else ([], Raise e)
  | Present x => ([], Return (Some x))
  end.
Proof.
  unfold load_store_data. destruct (stores_file fs); reflexivity.
Qed.

(** A cached load keeps the entry well formed, renders only what the entry
    holds afterwards, and, when it returns, returns what the entry holds. *)
Lemma cached_loader {A : Type} (msg : string) (file : file_state A)
    (entry : cache_entry (option A)) :
  loader_entry msg entry ->
  let body := match file with
              | Absent => ([Error msg], Return None)
              | Unreadable => ([], Raise PermissionError)
              | Malformed e =>
                  if is_FileNotFoundError e then ([Error msg], Return None)
                  else ([], Raise e)
              | Present x => ([], Return (Some x))
              end in
  let run := cached body entry in
  loader_entry msg (fst run) /\
  predict_calls (fst (snd run)) = [] /\
  shown_frames (fst (snd run)) = [] /\
  match snd (snd run) with
  | Return a => exists out, fst run = Some (out, a)
  | Raise e => fst run = entry /\ fst (snd run) = []
  end.
Proof.
  intros Hentry. destruct entry as [[out [x|]]|]; simpl in *.
  - subst out. simpl. repeat split; eauto.
  - subst out. simpl. repeat split; eauto.
  - destruct file as [| |e|x]; simpl; try (repeat split; eauto; fail).
    destruct (is_FileNotFoundError e); simpl; repeat split; eauto.
Qed.

End Loaders.

(** ** The whole script *)

Section Script.

(** A rerun either stops in a loader, before anything reaches the model, or
    runs [main] on what the two caches now hold. *)
Lemma script_cases (fs : files) (inp : inputs) (c : caches) :
  caches_inv c ->
  caches_inv (fst (script fs inp c)) /\
  ((exists out e,
       snd (script fs inp c) = (out, Raise e) /\
       predict_calls out = [] /\ shown_frames out = [])
   \/
   (exists om ot o1 o2 out0,
       model_cache (fst (script fs inp c)) = Some (o1, om) /\
       data_cache (fst (script fs inp c)) = Some (o2, ot) /\
       snd (script fs inp c) =
         ((out0 ++ fst (main om ot inp))%list, snd (main om ot inp)) /\
       predict_calls out0 = [] /\ shown_frames out0 = [])).
Proof.
  intros [Hm Hd]. unfold script.
  rewrite load_model_cases, load_store_data_cases.
  pose proof (cached_loader model_missing_msg (model_file fs) _ Hm) as Lm.
  pose proof (cached_loader stores_missing_msg (stores_file fs) _ Hd) as Ld.
  cbv zeta in Lm, Ld.
  destruct (cached _ (model_cache c)) as [mc [out1 [om|e]]];
    simpl in Lm; destruct Lm as (Im & Pm & Sm & Rm).
  - destruct Rm as [o1 ->].
    destruct (cached _ (data_cache c)) as [dc [out2 [ot|e]]];
      simpl in Ld; destruct Ld as (Id & Pd & Sd & Rd).
    + destruct Rd as [o2 ->].
      destruct (main om ot inp) as [out3 r] eqn:E. simpl.
      split; [split; assumption|]. right.
      exists om, ot, o1, o2, (out1 ++ out2)%list.
      rewrite predict_calls_app, shown_frames_app, Pm, Pd, Sm, Sd, <- app_assoc, E.
      repeat split; reflexivity.
    + destruct Rd as [-> ->]. simpl.
      split; [split; assumption|]. left.
      exists (out1 ++ [])%list, e.
      rewrite predict_calls_app, shown_frames_app, Pm, Sm.
      repeat split; reflexivity.
  - destruct Rm as [-> ->]. simpl.
    split; [split; assumption|]. left.
    exists [], e. repeat split; reflexivity.
Qed.

Lemma reachable_inv (c : caches) : reachable c -> caches_inv c.
Proof.
  induction 1 as [|c fs inp _ IH].
  - split; exact I.
  - apply (script_cases fs inp c IH).
Qed.

(** A frame reaches the model only in a run whose caches hold a model and a
    table, with the button pressed and a non-zero store of that table
    picked; it is then the only frame of the run; it is shown and the run
    ends normally, unless the frame cannot be converted, and then nothing is
    shown and the conversion error ends the run. *)
Lemma script_predict_inv (fs : files) (inp : inputs) (c : caches) (v : frame) :
  reachable c ->
  In v (predict_calls (script_out fs inp c)) ->
  exists m df o1 o2 s r,
    model_cache (script_caches fs inp c) = Some (o1, Some m) /\
    data_cache (script_caches fs inp c) = Some (o2, Some df) /\
    in_button inp = true /\
    selectbox (valid_stores df) (in_store_choice inp) = Some s /\
    s <> 0 /\
    find (fun r => Store r =? s) df = Some r /\
    input_df {| store := VInt s; store_size := Some (Size r);
                store_type := Some (Type_ r) |} inp = ([], Return v) /\
    predict_calls (script_out fs inp c) = [v] /\
    shown_frames (script_out fs inp c) = (if arrow_frame v then [v] else []) /\
    script_result fs inp c =
      (if arrow_frame v then Return tt
       else Raise StreamlitDataframeConversionError).
Proof.
  intros Hc Hin. unfold script_out, script_result, script_caches in *.
  destruct (script_cases fs inp c (reachable_inv c Hc)) as [_ [H|H]].
  - destruct H as (out & e & E & P & _). rewrite E in Hin. simpl in Hin.
    rewrite P in Hin. contradiction.
  - destruct H as (om & ot & o1 & o2 & out0 & Em & Ed & E & P & S).
    rewrite E in *. simpl in *.
    rewrite predict_calls_app, shown_frames_app, P, S in *. simpl in *.
    destruct (main_cases om ot inp) as [H|[Hq _]].
    + destruct H as (m & df & s & r & v' & -> & -> & Hb & Hs & Hz & Hf & Hv & Hp & Hsh & Hr).
      rewrite Hp in Hin. destruct Hin as [<-|[]].
      exists m, df, o1, o2, s, r. repeat split; assumption.
    + rewrite Hq in Hin. contradiction.
Qed.

(** Whatever a run shows with [st.dataframe] it handed to the model before. *)
Lemma script_shown_are_predicted (fs : files) (inp : inputs) (c : caches)
    (w : frame) :
  reachable c ->
  In w (shown_frames (script_out fs inp c)) ->
  In w (predict_calls (script_out fs inp c)).
Proof.
  intros Hc. unfold script_out.
  destruct (script_cases fs inp c (reachable_inv c Hc)) as [_ [H|H]].
  - destruct H as (out & e & E & P & S). rewrite E. simpl. rewrite S. contradiction.
  - destruct H as (om & ot & o1 & o2 & out0 & _ & _ & E & P & S).
    rewrite E. simpl. rewrite predict_calls_app, shown_frames_app, P, S. simpl.
    destruct (main_cases om ot inp) as [H|[Hq Hs]].
    + destruct H as (m & df & s & r & v' & _ & _ & _ & _ & _ & _ & _ & Hp & Hsh & _).
      rewrite Hp, Hsh. destruct (arrow_frame v'); [auto|contradiction].
    + rewrite Hs. contradiction.
Qed.

End Script.

(** * The claims *)

(** From a frame among a rerun's predict calls to its eighteen cells. *)
Ltac frame_of_call Hc Hin :=
  let Hv := fresh "Hv" in
  destruct (script_predict_inv _ _ _ _ Hc Hin)
    as (? & ? & ? & ? & ? & ? & _ & _ & _ & _ & _ & _ & Hv & _);
  rewrite input_df_bound in Hv; injection Hv as <-.

(** C1. Every frame handed to [model.predict], in any rerun of a process with
    any files and any widget values, has its eighteen columns in the order
    Store, Dept, IsHoliday, Size, Temperature, Fuel_Price, MarkDown1..5, CPI,
    Unemployment, Month, Year, Type_A, Type_B, Type_C. *)
Theorem C1_field_order (c : caches) (fs : files) (inp : inputs) (v : frame) :
  reachable c ->
  In v (predict_calls (script_out fs inp c)) ->
  map fst v =
  [ "Store"; "Dept"; "IsHoliday"; "Size"; "Temperature"; "Fuel_Price";
    "MarkDown1"; "MarkDown2"; "MarkDown3"; "MarkDown4"; "MarkDown5";
    "CPI"; "Unemployment"; "Month"; "Year"; "Type_A"; "Type_B"; "Type_C" ]
  /\ length v = 18%nat.
Proof.
  intros Hc Hin.
  frame_of_call Hc Hin.
  split; reflexivity.
Qed.

Lemma C1_field_order_witness :
  exists v,
    In v (predict_calls (script_out sample_files (scenario_A 0 1) empty_caches)) /\
    map fst v =
    [ "Store"; "Dept"; "IsHoliday"; "Size"; "Temperature"; "Fuel_Price";
      "MarkDown1"; "MarkDown2"; "MarkDown3"; "MarkDown4"; "MarkDown5";
      "CPI"; "Unemployment"; "Month"; "Year"; "Type_A"; "Type_B"; "Type_C" ]
    /\ length v = 18%nat.
Proof.
  eexists. split.
  - vm_compute. left. reflexivity.
  - apply (C1_field_order empty_caches sample_files (scenario_A 0 1)).
    + apply reach_start.
    + vm_compute. left. reflexivity.
Defined.

(** C2. When the button is pressed and the model or the reference table is
    [None], the handler renders the one error box and nothing else, whatever
    the local names hold, even unbound ones: no frame is assembled, nothing is
    handed to [model.predict], no frame is shown, the error box is the only
    one of the run, and the run ends normally. *)
Theorem C2_unavailable_resource_blocks_prediction
    (model : option St.model) (stores_df : option DataFrame) (inp : inputs) :
  model = None \/ stores_df = None ->
  in_button inp = true ->
  (forall l, on_predict model stores_df l inp = ([Error cannot_predict_msg], Return tt)) /\
  errors (fst (main model stores_df inp)) = [cannot_predict_msg] /\
  predict_calls (fst (main model stores_df inp)) = [] /\
  shown_frames (fst (main model stores_df inp)) = [] /\
  snd (main model stores_df inp) = Return tt.
Proof.
  intros Hnone Hb. split.
  - intros l. destruct Hnone as [-> | ->]; [|destruct model]; reflexivity.
  - unfold main. destruct stores_df as [df|].
    + destruct Hnone as [-> | [=]].
      rewrite core_information_table.
      destruct (selectbox (valid_stores df) (in_store_choice inp)) as [s|] eqn:Es.
      * destruct (s =? 0).
        -- rewrite Hb. repeat split; reflexivity.
        -- destruct (picked_store_found inp df s Es) as [r ->].
           rewrite Hb. repeat split; reflexivity.
      * rewrite Hb. repeat split; reflexivity.
    + unfold core_information. rewrite Hb.
      destruct model; repeat split; reflexivity.
Qed.

Lemma C2_unavailable_resource_blocks_prediction_witness :
  (forall l, on_predict None (Some sample_stores) l (scenario_A 0 1) =
             ([Error cannot_predict_msg], Return tt)) /\
  errors (fst (main None (Some sample_stores) (scenario_A 0 1))) =
    [cannot_predict_msg] /\
  predict_calls (fst (main None (Some sample_stores) (scenario_A 0 1))) = [] /\
  shown_frames (fst (main None (Some sample_stores) (scenario_A 0 1))) = [] /\
  snd (main None (Some sample_stores) (scenario_A 0 1)) = Return tt.
Proof.
  apply (C2_unavailable_resource_blocks_prediction None (Some sample_stores)
           (scenario_A 0 1)).
  - left. reflexivity.
  - reflexivity.
Defined.

(** C3. Whatever the category label, assembling the frame raises nothing, and
    each of Type_A, Type_B, Type_C is 1 exactly when the label is the string
    "A", "B", "C" respectively and 0 otherwise: at most one of them is 1,
    exactly one when the label is one of the three codes, none when it is
    not. *)
Theorem C3_one_hot (st : value) (sz : Z) (label : string) (inp : inputs) :
  exists v a b c,
    input_df {| store := st; store_size := Some sz; store_type := Some label |} inp
      = ([], Return v) /\
    cell "Type_A" v = Some (VInt a) /\
    cell "Type_B" v = Some (VInt b) /\
    cell "Type_C" v = Some (VInt c) /\
    (a = 1 <-> label = "A") /\ (a = 0 <-> label <> "A") /\
    (b = 1 <-> label = "B") /\ (b = 0 <-> label <> "B") /\
    (c = 1 <-> label = "C") /\ (c = 0 <-> label <> "C") /\
    a + b + c <= 1 /\
    (label = "A" \/ label = "B" \/ label = "C" -> a + b + c = 1) /\
    (label <> "A" /\ label <> "B" /\ label <> "C" -> a = 0 /\ b = 0 /\ c = 0).
Proof.
  rewrite input_df_bound.
  eexists _, (one_if (String.eqb label "A")),
             (one_if (String.eqb label "B")),
             (one_if (String.eqb label "C")).
  split; [reflexivity|]. do 3 (split; [reflexivity|]).
  pose proof (String.eqb_spec label "A") as SA.
  pose proof (String.eqb_spec label "B") as SB.
  pose proof (String.eqb_spec label "C") as SC.
  destruct SA as [HA|HA], SB as [HB|HB], SC as [HC|HC]; simpl;
    try (rewrite HA in HB; discriminate);
    try (rewrite HA in HC; discriminate);
    try (rewrite HB in HC; discriminate);
    intuition (congruence || lia).
Qed.

(** C4. For every store number of the reference table (other than 0, which
    [if store:] would skip; the data model's store numbers are positive), the
    table has a first row [r] with that number, the only one when numbers do
    not repeat; the select box offers the number; and when it is picked and
    the button pressed with a model loaded, the frame handed to the model
    carries that number, [r]'s Size, and the one-hot encoding of [r]'s Type. *)
Theorem C4_lookup_matches_table (m : model) (df : DataFrame) (s : Z) :
  In s (map Store df) ->
  s <> 0 ->
  exists r,
    find (fun r => Store r =? s) df = Some r /\
    In r df /\ Store r = s /\
    (NoDup (map Store df) -> forall r', In r' df -> Store r' = s -> r' = r) /\
    (exists choice, selectbox (valid_stores df) choice = Some s) /\
    (forall inp,
        selectbox (valid_stores df) (in_store_choice inp) = Some s ->
        in_button inp = true ->
        exists v,
          predict_calls (fst (main (Some m) (Some df) inp)) = [v] /\
          cell "Store" v = Some (VInt s) /\
          cell "Size" v = Some (VInt (Size r)) /\
          cell "Type_A" v = Some (VInt (one_if (String.eqb (Type_ r) "A"))) /\
          cell "Type_B" v = Some (VInt (one_if (String.eqb (Type_ r) "B"))) /\
          cell "Type_C" v = Some (VInt (one_if (String.eqb (Type_ r) "C")))).
Proof.
  intros Hin Hnz.
  destruct (find_store_In s df Hin) as [r Hf].
  destruct (find_store_row s df r Hf) as (Hr & Hs & Huniq).
  exists r. repeat split; try assumption.
  - apply selectbox_pick. apply In_valid_stores. exact Hin.
  - intros inp Hpick Hb. eexists.
    rewrite (main_predict_calls m df inp s r _ Hb Hpick Hnz Hf (input_df_bound _ _ _ _)).
    repeat split; reflexivity.
Qed.

Lemma C4_lookup_matches_table_witness :
  exists r,
    find (fun r => Store r =? 30) sample_stores = Some r /\
    In r sample_stores /\ Store r = 30 /\
    (NoDup (map Store sample_stores) ->
     forall r', In r' sample_stores -> Store r' = 30 -> r' = r) /\
    (exists choice, selectbox (valid_stores sample_stores) choice = Some 30) /\
    (forall inp,
        selectbox (valid_stores sample_stores) (in_store_choice inp) = Some 30 ->
        in_button inp = true ->
        exists v,
          predict_calls (fst (main (Some sample_model) (Some sample_stores) inp)) = [v] /\
          cell "Store" v = Some (VInt 30) /\
          cell "Size" v = Some (VInt (Size r)) /\
          cell "Type_A" v = Some (VInt (one_if (String.eqb (Type_ r) "A"))) /\
          cell "Type_B" v = Some (VInt (one_if (String.eqb (Type_ r) "B"))) /\
          cell "Type_C" v = Some (VInt (one_if (String.eqb (Type_ r) "C")))).
Proof.
  apply (C4_lookup_matches_table sample_model sample_stores 30).
  - simpl. do 3 right. left. reflexivity.
  - discriminate.
Defined.

(** C5, as stated, fails: with a file that exists but cannot be read, each
    loader lets [PermissionError] through instead of returning [None]; no
    error box is rendered, nothing is cached, and the rerun ends there. *)
Lemma C5_unreadable_file_raises :
  load_model unreadable_files = ([], Raise PermissionError) /\
  load_store_data unreadable_files = ([], Raise PermissionError) /\
  ~ (exists out, load_model unreadable_files = (out, Return None)) /\
  ~ (exists out, load_store_data unreadable_files = (out, Return None)) /\
  script unreadable_files (scenario_A 0 1) empty_caches =
    (empty_caches, ([], Raise PermissionError)).
Proof.
  repeat split; try reflexivity; intros [out H]; discriminate H.
Qed.

(** C5, amended.  Called through its cache, each loader
    - with its file missing returns [None], renders its error box and raises
      nothing;
    - with its file read returns the handle and renders nothing;
    - in both cases stores what it returned, and a later call hands back the
      stored value without looking at the files again, so that no rerun of the
      process ever changes a filled cache;
    - with a file that cannot be read for another reason lets the exception
      through and stores nothing. *)
Theorem C5_loaders_amended
    (x : model) (t : DataFrame)
    (any_model : file_state model) (any_stores : file_state DataFrame) :
  (* file missing *)
  cached (load_model {| model_file := Absent; stores_file := any_stores |}) None =
    (Some ([Error model_missing_msg], None),
     ([Error model_missing_msg], Return None)) /\
  cached (load_store_data {| model_file := any_model; stores_file := Absent |}) None =
    (Some ([Error stores_missing_msg], None),
     ([Error stores_missing_msg], Return None)) /\
  (* file read *)
  cached (load_model {| model_file := Present x; stores_file := any_stores |}) None =
    (Some ([], Some x), ([], Return (Some x))) /\
  cached (load_store_data {| model_file := any_model; stores_file := Present t |}) None =
    (Some ([], Some t), ([], Return (Some t))) /\
  (* the stored value is what later calls get, whatever is on disk *)
  (forall fs out a,
      cached (load_model fs) (Some (out, a)) = (Some (out, a), (out, Return a))) /\
  (forall fs out a,
      cached (load_store_data fs) (Some (out, a)) = (Some (out, a), (out, Return a))) /\
  (forall fs inp out a dc,
      model_cache (script_caches fs inp {| model_cache := Some (out, a);
                                           data_cache := dc |}) = Some (out, a)) /\
  (forall fs inp out a mc,
      data_cache (script_caches fs inp {| model_cache := mc;
                                          data_cache := Some (out, a) |}) = Some (out, a)) /\
  (* any other failure *)
  cached (load_model {| model_file := Unreadable; stores_file := any_stores |}) None =
    (None, ([], Raise PermissionError)) /\
  cached (load_store_data {| model_file := any_model; stores_file := Unreadable |}) None =
    (None, ([], Raise PermissionError)).
Proof.
  repeat split.
  - intros fs inp out a dc. unfold script_caches, script. simpl.
    destruct (cached (load_store_data fs) dc) as [dc' [out2 [ot|e]]];
      [destruct (main a ot inp)|]; reflexivity.
  - intros fs inp out a mc. unfold script_caches, script.
    cbn [model_cache data_cache].
    destruct (cached (load_model fs) mc) as [mc' [out1 [om|e]]];
      [simpl; destruct (main om a inp)|]; reflexivity.
Qed.

(** C6. In every frame handed to the model, IsHoliday is 1 when the holiday
    box gave [True] and 0 when it gave [False]. *)
Theorem C6_holiday_flag (c : caches) (fs : files) (inp : inputs) (v : frame) :
  reachable c ->
  In v (predict_calls (script_out fs inp c)) ->
  exists flag,
    selectbox [true; false] (in_is_holiday inp) = Some flag /\
    cell "IsHoliday" v = Some (VInt (if flag then 1 else 0)).
Proof.
  intros Hc Hin.
  frame_of_call Hc Hin.
  destruct (holiday_box (in_is_holiday inp)) as [flag Hflag].
  exists flag. split; [exact Hflag|].
  unfold cell. simpl. rewrite Hflag. destruct flag; reflexivity.
Qed.

Lemma C6_holiday_flag_witness :
  exists v,
    In v (predict_calls (script_out sample_files (scenario_A 0 1) empty_caches)) /\
    exists flag,
      selectbox [true; false] (in_is_holiday (scenario_A 0 1)) = Some flag /\
      cell "IsHoliday" v = Some (VInt (if flag then 1 else 0)).
Proof.
  eexists. split.
  - vm_compute. left. reflexivity.
  - apply (C6_holiday_flag empty_caches sample_files (scenario_A 0 1)).
    + apply reach_start.
    + vm_compute. left. reflexivity.
Defined.

(** C7. In every frame handed to the model, Month and Year are the month and
    the year of the date the date box gave. *)
Theorem C7_month_year (c : caches) (fs : files) (inp : inputs) (v : frame) :
  reachable c ->
  In v (predict_calls (script_out fs inp c)) ->
  cell "Month" v = Some (VInt (month (in_date inp))) /\
  cell "Year" v = Some (VInt (year (in_date inp))).
Proof.
  intros Hc Hin.
  frame_of_call Hc Hin.
  split; reflexivity.
Qed.

Lemma C7_month_year_witness :
  exists v,
    In v (predict_calls (script_out sample_files (scenario_A 0 1) empty_caches)) /\
    cell "Month" v = Some (VInt (month (in_date (scenario_A 0 1)))) /\
    cell "Year" v = Some (VInt (year (in_date (scenario_A 0 1)))).
Proof.
  eexists. split.
  - vm_compute. left. reflexivity.
  - apply (C7_month_year empty_caches sample_files (scenario_A 0 1)).
    + apply reach_start.
    + vm_compute. left. reflexivity.
Defined.

(** C8. Scenario A: store 1 picked, whose row in the table is type A with
    size 151315; department 1, 2 December 2022, no holiday, sliders at 65.0,
    3.50, 195.0 and 7.5, the five markdowns at 0.  With any model loaded, the
    run hands exactly this frame to the model and ends normally: Size 151315,
    IsHoliday 0, Month 12, Year 2022, Type_A 1, Type_B 0, Type_C 0. *)
Theorem C8_scenario_A (m : model) (df : DataFrame) (choice : nat) (number : Z) :
  selectbox (valid_stores df) choice = Some 1 ->
  find (fun r => Store r =? 1) df =
    Some {| Store := 1; Type_ := "A"; Size := 151315 |} ->
  predict_calls (fst (main (Some m) (Some df) (scenario_A choice number))) =
  [ [ ("Store", VInt 1); ("Dept", VInt 1); ("IsHoliday", VInt 0);
      ("Size", VInt 151315); ("Temperature", VFloat 65.0);
      ("Fuel_Price", VFloat 3.50);
      ("MarkDown1", VFloat 0.0); ("MarkDown2", VFloat 0.0);
      ("MarkDown3", VFloat 0.0); ("MarkDown4", VFloat 0.0);
      ("MarkDown5", VFloat 0.0);
      ("CPI", VFloat 195.0); ("Unemployment", VFloat 7.5);
      ("Month", VInt 12); ("Year", VInt 2022);
      ("Type_A", VInt 1); ("Type_B", VInt 0); ("Type_C", VInt 0) ] ] /\
  snd (main (Some m) (Some df) (scenario_A choice number)) = Return tt.
Proof.
  intros Hpick Hf.
  assert (Hnz : 1 <> 0) by discriminate.
  rewrite (main_predicts m df (scenario_A choice number) 1 _ _
             eq_refl Hpick Hnz Hf (input_df_bound _ _ _ _)).
  split; reflexivity.
Qed.

Lemma C8_scenario_A_witness :
  predict_calls
    (fst (main (Some sample_model) (Some sample_stores) (scenario_A 0 1))) =
  [ [ ("Store", VInt 1); ("Dept", VInt 1); ("IsHoliday", VInt 0);
      ("Size", VInt 151315); ("Temperature", VFloat 65.0);
      ("Fuel_Price", VFloat 3.50);
      ("MarkDown1", VFloat 0.0); ("MarkDown2", VFloat 0.0);
      ("MarkDown3", VFloat 0.0); ("MarkDown4", VFloat 0.0);
      ("MarkDown5", VFloat 0.0);
      ("CPI", VFloat 195.0); ("Unemployment", VFloat 7.5);
      ("Month", VInt 12); ("Year", VInt 2022);
      ("Type_A", VInt 1); ("Type_B", VInt 0); ("Type_C", VInt 0) ] ] /\
  snd (main (Some sample_model) (Some sample_stores) (scenario_A 0 1)) = Return tt.
Proof.
  apply (C8_scenario_A sample_model sample_stores 0%nat 1); reflexivity.
Defined.

(** C9. Every frame handed to the model was assembled in a run whose table
    cache holds a table [df], from the names that the table branch bound out
    of a row [r] of [df]: its Store, Size and one-hot Type cells are [r]'s.
    The placeholder branch belongs to runs without a table, and those never
    reach the model. *)
Theorem C9_no_placeholder_reaches_model
    (c : caches) (fs : files) (inp : inputs) (v : frame) :
  reachable c ->
  In v (predict_calls (script_out fs inp c)) ->
  exists df out r l,
    data_cache (script_caches fs inp c) = Some (out, Some df) /\
    In r df /\
    core_information (Some df) inp =
      ([InfoStoreDetails (Type_ r) (Size r)], Return l) /\
    store l = VInt (Store r) /\
    store_size l = Some (Size r) /\
    store_type l = Some (Type_ r) /\
    input_df l inp = ([], Return v) /\
    cell "Store" v = Some (VInt (Store r)) /\
    cell "Size" v = Some (VInt (Size r)) /\
    cell "Type_A" v = Some (VInt (one_if (String.eqb (Type_ r) "A"))) /\
    cell "Type_B" v = Some (VInt (one_if (String.eqb (Type_ r) "B"))) /\
    cell "Type_C" v = Some (VInt (one_if (String.eqb (Type_ r) "C"))) /\
    (forall model inp', predict_calls (fst (main model None inp')) = []).
Proof.
  intros Hc Hin.
  destruct (script_predict_inv fs inp c v Hc Hin)
    as (m & df & o1 & o2 & s & r & _ & Hd & _ & Hs & Hz & Hf & Hv & _).
  destruct (find_store_row s df r Hf) as (Hr & <- & _).
  exists df, o2, r, {| store := VInt (Store r); store_size := Some (Size r);
                       store_type := Some (Type_ r) |}.
  split; [exact Hd|]. split; [exact Hr|]. split.
  { rewrite core_information_table, Hs.
    apply Z.eqb_neq in Hz. rewrite Hz, Hf. reflexivity. }
  do 3 (split; [reflexivity|]). split; [exact Hv|].
  rewrite input_df_bound in Hv. injection Hv as <-.
  do 5 (split; [reflexivity|]).
  intros model inp'. apply placeholders_stay_home.
Qed.

Lemma C9_no_placeholder_reaches_model_witness :
  exists v,
    In v (predict_calls (script_out sample_files (scenario_A 3 1) empty_caches)) /\
    exists df out r l,
      data_cache (script_caches sample_files (scenario_A 3 1) empty_caches)
        = Some (out, Some df) /\
      In r df /\
      core_information (Some df) (scenario_A 3 1) =
        ([InfoStoreDetails (Type_ r) (Size r)], Return l) /\
      store l = VInt (Store r) /\
      store_size l = Some (Size r) /\
      store_type l = Some (Type_ r) /\
      input_df l (scenario_A 3 1) = ([], Return v) /\
      cell "Store" v = Some (VInt (Store r)) /\
      cell "Size" v = Some (VInt (Size r)) /\
      cell "Type_A" v = Some (VInt (one_if (String.eqb (Type_ r) "A"))) /\
      cell "Type_B" v = Some (VInt (one_if (String.eqb (Type_ r) "B"))) /\
      cell "Type_C" v = Some (VInt (one_if (String.eqb (Type_ r) "C"))) /\
      (forall model inp', predict_calls (fst (main model None inp')) = []).
Proof.
  eexists. split.
  - vm_compute. left. reflexivity.
  - apply (C9_no_placeholder_reaches_model empty_caches sample_files (scenario_A 3 1)).
    + apply reach_start.
    + vm_compute. left. reflexivity.
Defined.

(** C10. Two reruns with the same widget values and the same table in the
    table cache, in whatever process, with whatever files on disk and
    whatever model, hand the same frame to the model, cell for cell, and
    nothing else.  In each rerun a frame shown with [st.dataframe] can only be
    the frame that was handed to the model; and a rerun that ends normally
    has shown exactly that frame.  (A rerun whose frame [st.dataframe] cannot
    convert ends there, after the model call, with nothing shown.) *)
Theorem C10_deterministic_assembly
    (c1 c2 : caches) (fs1 fs2 : files) (inp : inputs)
    (df : DataFrame) (o1 o2 : list element) (v1 v2 : frame) :
  reachable c1 ->
  reachable c2 ->
  data_cache (script_caches fs1 inp c1) = Some (o1, Some df) ->
  data_cache (script_caches fs2 inp c2) = Some (o2, Some df) ->
  In v1 (predict_calls (script_out fs1 inp c1)) ->
  In v2 (predict_calls (script_out fs2 inp c2)) ->
  v1 = v2 /\
  predict_calls (script_out fs1 inp c1) = [v1] /\
  predict_calls (script_out fs2 inp c2) = [v2] /\
  (forall w, In w (shown_frames (script_out fs1 inp c1)) -> w = v1) /\
  (forall w, In w (shown_frames (script_out fs2 inp c2)) -> w = v2) /\
  (script_result fs1 inp c1 = Return tt ->
   shown_frames (script_out fs1 inp c1) = [v1]) /\
  (script_result fs2 inp c2 = Return tt ->
   shown_frames (script_out fs2 inp c2) = [v2]).
Proof.
  intros Hc1 Hc2 Hd1 Hd2 Hin1 Hin2.
  destruct (script_predict_inv fs1 inp c1 v1 Hc1 Hin1)
    as (m1 & df1 & p1 & q1 & s1 & r1 & _ & Hd1' & _ & Hs1 & _ & Hf1 & Hv1
        & Hp1 & Hsh1 & Hr1).
  destruct (script_predict_inv fs2 inp c2 v2 Hc2 Hin2)
    as (m2 & df2 & p2 & q2 & s2 & r2 & _ & Hd2' & _ & Hs2 & _ & Hf2 & Hv2
        & Hp2 & Hsh2 & Hr2).
  rewrite Hd1 in Hd1'. injection Hd1' as _ <-.
  rewrite Hd2 in Hd2'. injection Hd2' as _ <-.
  rewrite Hs1 in Hs2. injection Hs2 as <-.
  rewrite Hf1 in Hf2. injection Hf2 as <-.
  rewrite Hv1 in Hv2. injection Hv2 as <-.
  rewrite Hsh1, Hsh2, Hr1, Hr2.
  split; [reflexivity|]. split; [exact Hp1|]. split; [exact Hp2|].
  destruct (arrow_frame v1); simpl;
    repeat split; try reflexivity; try discriminate;
    intros w Hw; intuition.
Qed.

Lemma C10_deterministic_assembly_witness :
  exists v1 v2,
    In v1 (predict_calls (script_out sample_files (scenario_A 0 1) empty_caches)) /\
    In v2 (predict_calls
             (script_out unreadable_files (scenario_A 0 1)
                (script_caches sample_files (scenario_A 1 1) empty_caches))) /\
    v1 = v2 /\
    predict_calls (script_out sample_files (scenario_A 0 1) empty_caches) = [v1] /\
    predict_calls
      (script_out unreadable_files (scenario_A 0 1)
         (script_caches sample_files (scenario_A 1 1) empty_caches)) = [v2] /\
    (forall w,
        In w (shown_frames (script_out sample_files (scenario_A 0 1) empty_caches)) ->
        w = v1) /\
    (forall w,
        In w (shown_frames
                (script_out unreadable_files (scenario_A 0 1)
                   (script_caches sample_files (scenario_A 1 1) empty_caches))) ->
        w = v2) /\
    (script_result sample_files (scenario_A 0 1) empty_caches = Return tt ->
     shown_frames (script_out sample_files (scenario_A 0 1) empty_caches) = [v1]) /\
    (script_result unreadable_files (scenario_A 0 1)
       (script_caches sample_files (scenario_A 1 1) empty_caches) = Return tt ->
     shown_frames
       (script_out unreadable_files (scenario_A 0 1)
          (script_caches sample_files (scenario_A 1 1) empty_caches)) = [v2]).
Proof.
  eexists _, _.
  split; [vm_compute; left; reflexivity|].
  split; [vm_compute; left; reflexivity|].
  apply (C10_deterministic_assembly
           empty_caches
           (script_caches sample_files (scenario_A 1 1) empty_caches)
           sample_files unreadable_files (scenario_A 0 1)
           sample_stores [] []).
  - apply reach_start.
  - apply reach_rerun, reach_start.
  - reflexivity.
  - reflexivity.
  - vm_compute. left. reflexivity.
  - vm_compute. left. reflexivity.
Defined.

(** ** Corner cases of the look-up, for the record *)

(** A store number 0 in the table is offered by the select box, but
    [if store:] takes it for "nothing picked": the two names stay unbound and
    pressing the button ends the run with [NameError]. *)
Lemma store_zero_is_skipped (m : model) (df : DataFrame) (inp : inputs) :
  selectbox (valid_stores df) (in_store_choice inp) = Some 0 ->
  in_button inp = true ->
  snd (main (Some m) (Some df) inp) = Raise (NameError "store_size") /\
  predict_calls (fst (main (Some m) (Some df) inp)) = [].
Proof.
  intros Hpick Hb. unfold main.
  rewrite core_information_table, Hpick, Hb. split; reflexivity.
Qed.

(** A table without rows loads, the select box has nothing to offer, and
    pressing the button ends the run the same way. *)
Lemma empty_table_is_skipped (m : model) (inp : inputs) :
  in_button inp = true ->
  snd (main (Some m) (Some []) inp) = Raise (NameError "store_size").
Proof.
  intros Hb. unfold main. rewrite core_information_table.
  unfold valid_stores, selectbox. simpl.
  destruct (in_store_choice inp); simpl; rewrite Hb; reflexivity.
Qed.

(** A category label outside the three codes goes to the model as three
    zeros, without any error box. *)
Example unknown_label_all_zero :
  let df := [ {| Store := 7; Type_ := "D"; Size := 70713 |} ] in
  let out := fst (main (Some sample_model) (Some df) (scenario_A 0 1)) in
  errors out = [] /\
  exists v,
    predict_calls out = [v] /\
    cell "Type_A" v = Some (VInt 0) /\
    cell "Type_B" v = Some (VInt 0) /\
    cell "Type_C" v = Some (VInt 0).
Proof.
  split; [reflexivity|]. eexists. repeat split; reflexivity.
Qed.

(** * Further properties of the script *)

(** ** The store select box *)

Section StoreBox.

Lemma insert_sorted_perm (x : Z) (l : list Z) :
  Permutation (insert_sorted x l) (x :: l).
Proof.
  induction l as [|y l IH]; simpl; [reflexivity|].
  destruct (x <=? y); [reflexivity|].
  rewrite IH. apply perm_swap.
Qed.

Lemma sorted_perm (l : list Z) : Permutation (sorted l) l.
Proof.
  induction l as [|x l IH]; simpl; [reflexivity|].
  rewrite insert_sorted_perm. apply perm_skip. exact IH.
Qed.

Lemma insert_sorted_le (x : Z) (l : list Z) :
  StronglySorted Z.le l -> StronglySorted Z.le (insert_sorted x l).
Proof.
  induction 1 as [|y l Hs IH Hall]; simpl.
  - repeat constructor.
  - destruct (x <=? y) eqn:E.
    + apply Z.leb_le in E. constructor; [constructor; assumption|].
      constructor; [exact E|].
      eapply Forall_impl; [|exact Hall]. intros z Hz. lia.
    + apply Z.leb_gt in E. constructor; [exact IH|].
      apply Forall_forall. intros z Hz. apply In_insert_sorted in Hz.
      destruct Hz as [->|Hz]; [lia|].
      rewrite Forall_forall in Hall. auto.
Qed.

Lemma sorted_le (l : list Z) : StronglySorted Z.le (sorted l).
Proof.
  induction l as [|x l IH]; simpl; [constructor|].
  apply insert_sorted_le. exact IH.
Qed.

Lemma unique_from_NoDup (seen l : list Z) : NoDup (unique_from seen l).
Proof.
  revert seen. induction l as [|x l IH]; intros seen; simpl; [constructor|].
  destruct (existsb (Z.eqb x) seen); [apply IH|].
  constructor; [|apply IH].
  rewrite In_unique_from. intros [_ Hn]. apply Hn. left. reflexivity.
Qed.

Lemma le_sorted_NoDup_lt (l : list Z) :
  StronglySorted Z.le l -> NoDup l -> StronglySorted Z.lt l.
Proof.
  induction 1 as [|x l Hs IH Hall]; intros Hnd; [constructor|].
  inversion Hnd as [|? ? Hnotin Hnd']; subst.
  constructor; [auto|].
  rewrite Forall_forall in *. intros y Hy.
  assert (x <> y) by (intros ->; contradiction).
  specialize (Hall y Hy). lia.
Qed.

Lemma selectbox_None {A : Type} (options : list A) (choice : nat) :
  selectbox options choice = None <-> options = [].
Proof.
  unfold selectbox. split.
  - destruct (nth_error options choice); [discriminate|].
    destruct options; [reflexivity|discriminate].
  - intros ->. destruct choice; reflexivity.
Qed.

Lemma valid_stores_NoDup (df : DataFrame) : NoDup (valid_stores df).
Proof.
  unfold valid_stores, unique.
  eapply Permutation_NoDup; [symmetry; apply sorted_perm|].
  apply unique_from_NoDup.
Qed.

Lemma valid_stores_lt (df : DataFrame) : StronglySorted Z.lt (valid_stores df).
Proof.
  apply le_sorted_NoDup_lt; [apply sorted_le|apply valid_stores_NoDup].
Qed.

Lemma valid_stores_rows (df : DataFrame) (s : Z) :
  In s (valid_stores df) <-> exists r, In r df /\ Store r = s.
Proof.
  rewrite In_valid_stores, in_map_iff.
  split; intros [r [H1 H2]]; exists r; split; assumption.
Qed.

End StoreBox.

(** X1. The store select box lists the store numbers of the table, each one
    once, in strictly ascending order, whatever the order and the repetitions
    of the rows. *)
Theorem X1_valid_stores_ascending (df : DataFrame) :
  StronglySorted Z.lt (valid_stores df) /\
  NoDup (valid_stores df) /\
  (forall s, In s (valid_stores df) <-> exists r, In r df /\ Store r = s).
Proof.
  split; [apply valid_stores_lt|].
  split; [apply valid_stores_NoDup|].
  intros s. apply valid_stores_rows.
Qed.

(** X2. With the select box left at its first option, the store is the
    smallest store number of the table. *)
Theorem X2_default_store_is_smallest (df : DataFrame) (s : Z) :
  selectbox (valid_stores df) 0 = Some s ->
  (exists r, In r df /\ Store r = s) /\
  (forall r, In r df -> s <= Store r).
Proof.
  intros Hpick.
  split; [apply valid_stores_rows; eapply selectbox_In; exact Hpick|].
  intros r Hr.
  assert (Hin : In (Store r) (valid_stores df))
    by (apply valid_stores_rows; eauto).
  pose proof (valid_stores_lt df) as Hsorted.
  unfold selectbox in Hpick.
  destruct (valid_stores df) as [|x l]; [discriminate|].
  simpl in Hpick. injection Hpick as ->.
  inversion Hsorted as [|? ? _ Hall]; subst.
  destruct Hin as [<-|Hin]; [lia|].
  rewrite Forall_forall in Hall. specialize (Hall _ Hin). lia.
Qed.

Lemma X2_default_store_is_smallest_witness :
  (exists r, In r sample_stores /\ Store r = 1) /\
  (forall r, In r sample_stores -> 1 <= Store r).
Proof.
  apply (X2_default_store_is_smallest sample_stores 1). reflexivity.
Defined.

(** X3. The store select box has nothing to hand back exactly when the table
    has no rows; with any row at all, every pick is a store number. *)
Theorem X3_no_store_iff_empty_table (df : DataFrame) (choice : nat) :
  selectbox (valid_stores df) choice = None <-> df = [].
Proof.
  rewrite selectbox_None. split.
  - intros Hnil. destruct df as [|r df]; [reflexivity|].
    assert (Hin : In (Store r) (valid_stores (r :: df))).
    { apply valid_stores_rows. exists r. split; [left|]; reflexivity. }
    rewrite Hnil in Hin. contradiction.
  - intros ->. reflexivity.
Qed.

(** ** Re-indexing the dictionary *)

(** X4. When the re-indexing returns a frame, the frame's labels are the
    requested columns in the requested order, and every requested column
    holds the value the dictionary has under that key. *)
Theorem X4_select_columns_cells (cols : list string) (d : dict) (f : frame) :
  select_columns cols d = Return f ->
  map fst f = cols /\
  (forall c, In c cols -> exists v, dict_get c d = Some v /\ cell c f = Some v).
Proof.
  revert f. induction cols as [|c0 cols IH]; simpl; intros f H.
  - injection H as <-. split; [reflexivity|contradiction].
  - destruct (dict_get c0 d) as [v0|] eqn:E0; [|discriminate].
    destruct (select_columns cols d) as [f'|e]; [|discriminate].
    injection H as <-. destruct (IH f' eq_refl) as [Hl Hc].
    split; [simpl; rewrite Hl; reflexivity|].
    intros c Hin. unfold cell. simpl.
    destruct (String.eqb_spec c c0) as [->|Hne].
    + exists v0. split; [exact E0|reflexivity].
    + destruct Hin as [->|Hin]; [contradiction|]. apply Hc. exact Hin.
Qed.

Lemma X4_select_columns_cells_witness :
  map fst [("b", VInt 2); ("a", VInt 1)] = ["b"; "a"] /\
  (forall c, In c ["b"; "a"] ->
     exists v, dict_get c [("a", VInt 1); ("z", VNone); ("b", VInt 2)] = Some v /\
               cell c [("b", VInt 2); ("a", VInt 1)] = Some v).
Proof.
  apply (X4_select_columns_cells ["b"; "a"]
           [("a", VInt 1); ("z", VNone); ("b", VInt 2)]).
  reflexivity.
Defined.

(** X5. The re-indexing raises exactly when a requested column is not a key
    of the dictionary, and then with a [KeyError] for a missing column. *)
Theorem X5_select_columns_missing_key (cols : list string) (d : dict) :
  ((exists c, In c cols /\ dict_get c d = None) <->
   exists e, select_columns cols d = Raise e) /\
  (forall e, select_columns cols d = Raise e ->
     exists c, e = KeyError c /\ In c cols /\ dict_get c d = None).
Proof.
  induction cols as [|c0 cols [IHiff IHe]]; simpl.
  - split; [split|]; [intros [c [[] _]] | intros [e H]; discriminate
                     | intros e H; discriminate].
  - destruct (dict_get c0 d) as [v0|] eqn:E0.
    + destruct (select_columns cols d) as [f'|e'] eqn:Es.
      * split; [split|].
        -- intros [c [[<-|Hin] Hc]]; [congruence|].
           destruct (proj1 IHiff) as [e He]; [eauto|discriminate].
        -- intros [e H]. discriminate.
        -- intros e H. discriminate.
      * destruct (IHe e' eq_refl) as (c & -> & Hin & Hc).
        split; [split|].
        -- intros _. eauto.
        -- intros _. exists c. auto.
        -- intros e [= <-]. exists c. auto.
    + split; [split|].
      * intros _. eauto.
      * intros _. exists c0. auto.
      * intros e [= <-]. exists c0. auto.
Qed.

(** X6. The frame depends on the dictionary only through the values under
    the requested keys: the order in which the dictionary lists its keys, and
    any further keys it has, make no difference. *)
Theorem X6_select_columns_order_free (cols : list string) (d d' : dict) :
  (forall c, In c cols -> dict_get c d = dict_get c d') ->
  select_columns cols d = select_columns cols d'.
Proof.
  induction cols as [|c0 cols IH]; simpl; intros H; [reflexivity|].
  rewrite <- (H c0) by (left; reflexivity).
  rewrite IH by (intros c Hc; apply H; right; exact Hc).
  reflexivity.
Qed.

Lemma X6_select_columns_order_free_witness :
  select_columns ["a"; "b"] [("a", VInt 1); ("b", VInt 2)] =
  select_columns ["a"; "b"] [("z", VNone); ("b", VInt 2); ("a", VInt 1)].
Proof.
  apply (X6_select_columns_order_free ["a"; "b"]).
  intros c [<-|[<-|[]]]; reflexivity.
Defined.

(** X7. The dictionary that the script builds has exactly the eighteen keys
    of [column_order], each once, so that re-indexing it can never raise
    [KeyError]: with both names bound the assembly returns, and the
    dictionary and the frame hold the same value under every column. *)
Theorem X7_keys_match_column_order (st : value) (sz : Z) (ty : string) (inp : inputs) :
  exists d f,
    input_data {| store := st; store_size := Some sz; store_type := Some ty |} inp
      = ([], Return d) /\
    NoDup (map fst d) /\
    (forall c, In c (map fst d) <-> In c column_order) /\
    select_columns column_order d = Return f /\
    (forall c, In c column_order -> cell c f = dict_get c d).
Proof.
  eexists _, _. split; [reflexivity|].
  split.
  { simpl. repeat (constructor; [simpl; intuition discriminate|]). constructor. }
  split; [intros c; simpl; tauto|].
  split; [reflexivity|].
  intros c Hc. simpl in Hc.
  repeat (destruct Hc as [<-|Hc]; [reflexivity|]). contradiction.
Qed.

(** ** How a run ends *)

Section Outcomes.

Variables (model : option St.model) (stores_df : option DataFrame).
Variable inp : inputs.

(** The error boxes of [main]: only the one of the button handler. *)
Lemma main_errors :
  errors (fst (main model stores_df inp)) =
  if in_button inp then
    match model, stores_df with
    | Some _, Some _ => []
    | _, _ => [cannot_predict_msg]
    end
  else [].
Proof.
  destruct stores_df as [df|].
  - destruct (selectbox (valid_stores df) (in_store_choice inp)) as [s|] eqn:Es.
    + destruct (s =? 0) eqn:Ez.
      * unfold main. rewrite core_information_table, Es, Ez.
        destruct model, (in_button inp); reflexivity.
      * destruct (picked_store_found inp df s Es) as [r Ef].
        destruct model as [m|], (in_button inp) eqn:Eb;
          try (unfold main; rewrite core_information_table, Es, Ez, Ef, ?Eb;
               reflexivity).
        apply Z.eqb_neq in Ez.
        rewrite (main_predicts m df inp s r _ Eb Es Ez Ef (input_df_bound _ _ _ _)).
        destruct (arrow_frame _); reflexivity.
    + unfold main. rewrite core_information_table, Es.
      destruct model, (in_button inp); reflexivity.
  - unfold main, core_information. destruct model, (in_button inp); reflexivity.
Qed.

End Outcomes.


(** X8. A table that loads but has no rows: the store select box has nothing
    to pick, the look-up is skipped and [store_size] stays unbound.  Whatever
    the other widgets hold, a run without the button ends normally, and a run
    with the button ends with [NameError] on [store_size]; neither calls the
    model, shows a frame or renders an error box. *)
Theorem X8_empty_table_raises_on_button (m : model) (inp : inputs) :
  snd (main (Some m) (Some []) inp) =
    (if in_button inp then Raise (NameError "store_size") else Return tt) /\
  predict_calls (fst (main (Some m) (Some []) inp)) = [] /\
  shown_frames (fst (main (Some m) (Some []) inp)) = [] /\
  errors (fst (main (Some m) (Some []) inp)) = [].
Proof.
  unfold main. rewrite core_information_table.
  assert (E : selectbox (valid_stores []) (in_store_choice inp) = None)
    by (destruct (in_store_choice inp); reflexivity).
  rewrite E. destruct (in_button inp); repeat split; reflexivity.
Qed.

(** X9. A file that is there but may not be read ends the rerun in the
    loader that has to read it.  In the model loader: the rerun ends with
    [PermissionError], nothing is rendered and both caches stay as they were;
    the table loader is not even called.  In the table loader: the rerun ends
    with an exception, which is [PermissionError] when the model loader got
    through; the table cache stays empty, and nothing reaches the model or is
    shown. *)
Theorem X9_unreadable_file_ends_rerun (c : caches) (fs : files) (inp : inputs) :
  reachable c ->
  (model_cache c = None -> model_file fs = Unreadable ->
   script fs inp c = (c, ([], Raise PermissionError))) /\
  (data_cache c = None -> stores_file fs = Unreadable ->
   (exists e, script_result fs inp c = Raise e) /\
   (model_cache (script_caches fs inp c) <> None ->
    script_result fs inp c = Raise PermissionError) /\
   data_cache (script_caches fs inp c) = None /\
   predict_calls (script_out fs inp c) = [] /\
   shown_frames (script_out fs inp c) = []).
Proof.
  intros Hc. split.
  - intros Em Ef. destruct c as [mc dc]. simpl in Em. subst mc.
    unfold script. rewrite load_model_cases, Ef. reflexivity.
  - intros Ed Ef.
    assert (Hres : (exists e, script_result fs inp c = Raise e) /\
                   (model_cache (script_caches fs inp c) <> None ->
                    script_result fs inp c = Raise PermissionError) /\
                   data_cache (script_caches fs inp c) = None).
    { unfold script_result, script_caches, script.
      rewrite load_model_cases, load_store_data_cases, Ed, Ef.
      destruct (model_cache c) as [[o a]|].
      - simpl. repeat split; eauto.
      - destruct (model_file fs) as [| |e|x]; simpl;
          try destruct (is_FileNotFoundError e); simpl;
          repeat split; eauto; intros H; contradiction. }
    destruct Hres as (He & Hr & Hd).
    split; [exact He|]. split; [exact Hr|]. split; [exact Hd|].
    assert (Hp : predict_calls (script_out fs inp c) = []).
    { destruct (predict_calls (script_out fs inp c)) as [|v l] eqn:E;
        [reflexivity|].
      assert (Hin : In v (predict_calls (script_out fs inp c)))
        by (rewrite E; left; reflexivity).
      destruct (script_predict_inv fs inp c v Hc Hin)
        as (? & ? & ? & ? & _ & _ & _ & Ed' & _).
      congruence. }
    split; [exact Hp|].
    destruct (shown_frames (script_out fs inp c)) as [|w l] eqn:E;
      [reflexivity|].
    assert (Hin : In w (shown_frames (script_out fs inp c)))
      by (rewrite E; left; reflexivity).
    apply script_shown_are_predicted in Hin; [|exact Hc].
    rewrite Hp in Hin. contradiction.
Qed.

Lemma X9_unreadable_file_ends_rerun_witness :
  (model_cache empty_caches = None -> model_file unreadable_files = Unreadable ->
   script unreadable_files (scenario_A 0 1) empty_caches =
     (empty_caches, ([], Raise PermissionError))) /\
  (data_cache empty_caches = None -> stores_file unreadable_files = Unreadable ->
   (exists e, script_result unreadable_files (scenario_A 0 1) empty_caches
              = Raise e) /\
   (model_cache (script_caches unreadable_files (scenario_A 0 1) empty_caches)
      <> None ->
    script_result unreadable_files (scenario_A 0 1) empty_caches
      = Raise PermissionError) /\
   data_cache (script_caches unreadable_files (scenario_A 0 1) empty_caches)
     = None /\
   predict_calls (script_out unreadable_files (scenario_A 0 1) empty_caches) = [] /\
   shown_frames (script_out unreadable_files (scenario_A 0 1) empty_caches) = []).
Proof.
  apply (X9_unreadable_file_ends_rerun empty_caches unreadable_files (scenario_A 0 1)).
  apply reach_start.
Defined.

(** X10. Without the button pressed, the script from the header on calls
    nothing on the model, shows no frame and renders no error box, whatever
    was loaded and whatever the widgets hold.  The names that a skipped
    look-up leaves unbound do no harm then: with no table, with nothing to
    pick or with store number 0 picked, the run ends normally. *)
Theorem X10_idle_run_is_quiet
    (model : option St.model) (stores_df : option DataFrame) (inp : inputs) :
  in_button inp = false ->
  predict_calls (fst (main model stores_df inp)) = [] /\
  shown_frames (fst (main model stores_df inp)) = [] /\
  errors (fst (main model stores_df inp)) = [] /\
  snd (main model None inp) = Return tt /\
  (forall df,
      selectbox (valid_stores df) (in_store_choice inp) = None \/
      selectbox (valid_stores df) (in_store_choice inp) = Some 0 ->
      snd (main model (Some df) inp) = Return tt).
Proof.
  intros Hb.
  assert (Hquiet : predict_calls (fst (main model stores_df inp)) = [] /\
                   shown_frames (fst (main model stores_df inp)) = []).
  { destruct (main_cases model stores_df inp) as [H|H]; [|exact H].
    destruct H as (? & ? & ? & ? & ? & _ & _ & Hb' & _). congruence. }
  destruct Hquiet as [Hp Hs].
  split; [exact Hp|]. split; [exact Hs|].
  split; [rewrite main_errors, Hb; reflexivity|].
  split.
  - unfold main, core_information. rewrite Hb. destruct model; reflexivity.
  - intros df [E|E]; unfold main; rewrite core_information_table, E, Hb;
      destruct model; reflexivity.
Qed.

Lemma X10_idle_run_is_quiet_witness :
  predict_calls (fst (main (Some sample_model) (Some []) untouched)) = [] /\
  shown_frames (fst (main (Some sample_model) (Some []) untouched)) = [] /\
  errors (fst (main (Some sample_model) (Some []) untouched)) = [] /\
  snd (main (Some sample_model) None untouched) = Return tt /\
  (forall df,
      selectbox (valid_stores df) (in_store_choice untouched) = None \/
      selectbox (valid_stores df) (in_store_choice untouched) = Some 0 ->
      snd (main (Some sample_model) (Some df) untouched) = Return tt).
Proof.
  apply (X10_idle_run_is_quiet (Some sample_model) (Some []) untouched).
  reflexivity.
Defined.

(** X11. The "cannot predict" error box is rendered exactly when the button
    is pressed while the model or the table is [None]; a run with both loaded
    renders no error box from the header on. *)
Theorem X11_cannot_predict_iff
    (model : option St.model) (stores_df : option DataFrame) (inp : inputs) :
  (In cannot_predict_msg (errors (fst (main model stores_df inp))) <->
   in_button inp = true /\ (model = None \/ stores_df = None)) /\
  (model <> None -> stores_df <> None ->
   errors (fst (main model stores_df inp)) = []).
Proof.
  rewrite main_errors. split.
  - destruct (in_button inp), model, stores_df; simpl;
      intuition discriminate.
  - intros Hm Hs. destruct (in_button inp), model, stores_df;
      try reflexivity; contradiction.
Qed.



(** X13. In a run that reaches the model, the store details shown to the
    user in the info box are the ones sent to the model: the Size cell is the
    size shown and the three indicators encode the type shown. *)
Theorem X13_shown_details_are_sent
    (model : option St.model) (stores_df : option DataFrame) (inp : inputs)
    (v : frame) (ty : string) (sz : Z) :
  In v (predict_calls (fst (main model stores_df inp))) ->
  In (InfoStoreDetails ty sz) (fst (main model stores_df inp)) ->
  cell "Size" v = Some (VInt sz) /\
  cell "Type_A" v = Some (VInt (one_if (String.eqb ty "A"))) /\
  cell "Type_B" v = Some (VInt (one_if (String.eqb ty "B"))) /\
  cell "Type_C" v = Some (VInt (one_if (String.eqb ty "C"))).
Proof.
  intros Hin Hinfo.
  destruct (main_cases model stores_df inp) as [H|[Hq _]].
  - destruct H as (m & df & s & r & v' & -> & -> & Hb & Hs & Hz & Hf & Hv & Hp & _).
    rewrite Hp in Hin. destruct Hin as [<-|[]].
    rewrite (main_predicts m df inp s r v' Hb Hs Hz Hf Hv) in Hinfo.
    assert (Hshown : ty = Type_ r /\ sz = Size r).
    { destruct (arrow_frame v'); simpl in Hinfo;
        repeat (destruct Hinfo as [Hinfo|Hinfo];
                [try discriminate; try (injection Hinfo as <- <-; auto)|]);
        contradiction. }
    destruct Hshown as [-> ->].
    rewrite input_df_bound in Hv. injection Hv as <-.
    repeat split; reflexivity.
  - rewrite Hq in Hin. contradiction.
Qed.

Lemma X13_shown_details_are_sent_witness :
  exists v,
    In v (predict_calls
            (fst (main (Some sample_model) (Some sample_stores) (scenario_A 2 1)))) /\
    In (InfoStoreDetails "B" 37392)
       (fst (main (Some sample_model) (Some sample_stores) (scenario_A 2 1))) /\
    cell "Size" v = Some (VInt 37392) /\
    cell "Type_A" v = Some (VInt (one_if (String.eqb "B" "A"))) /\
    cell "Type_B" v = Some (VInt (one_if (String.eqb "B" "B"))) /\
    cell "Type_C" v = Some (VInt (one_if (String.eqb "B" "C"))).
Proof.
  eexists. split; [vm_compute; left; reflexivity|].
  split; [vm_compute; do 4 right; left; reflexivity|].
  apply (X13_shown_details_are_sent (Some sample_model) (Some sample_stores)
           (scenario_A 2 1)).
  - vm_compute. left. reflexivity.
  - vm_compute. do 4 right. left. reflexivity.
Defined.

(** X14. In every frame handed to the model, the department and the nine
    real-valued features are the widget values, unchanged. *)
Theorem X14_widget_values_pass_through
    (c : caches) (fs : files) (inp : inputs) (v : frame) :
  reachable c ->
  In v (predict_calls (script_out fs inp c)) ->
  cell "Dept" v = Some (VInt (in_dept inp)) /\
  cell "Temperature" v = Some (VFloat (in_temperature inp)) /\
  cell "Fuel_Price" v = Some (VFloat (in_fuel_price inp)) /\
  cell "MarkDown1" v = Some (VFloat (in_markdown1 inp)) /\
  cell "MarkDown2" v = Some (VFloat (in_markdown2 inp)) /\
  cell "MarkDown3" v = Some (VFloat (in_markdown3 inp)) /\
  cell "MarkDown4" v = Some (VFloat (in_markdown4 inp)) /\
  cell "MarkDown5" v = Some (VFloat (in_markdown5 inp)) /\
  cell "CPI" v = Some (VFloat (in_cpi inp)) /\
  cell "Unemployment" v = Some (VFloat (in_unemployment inp)).
Proof.
  intros Hc Hin. frame_of_call Hc Hin. repeat split; reflexivity.
Qed.

Lemma X14_widget_values_pass_through_witness :
  exists v,
    In v (predict_calls (script_out sample_files (scenario_A 0 1) empty_caches)) /\
    cell "Dept" v = Some (VInt (in_dept (scenario_A 0 1))) /\
    cell "Temperature" v = Some (VFloat (in_temperature (scenario_A 0 1))) /\
    cell "Fuel_Price" v = Some (VFloat (in_fuel_price (scenario_A 0 1))) /\
    cell "MarkDown1" v = Some (VFloat (in_markdown1 (scenario_A 0 1))) /\
    cell "MarkDown2" v = Some (VFloat (in_markdown2 (scenario_A 0 1))) /\
    cell "MarkDown3" v = Some (VFloat (in_markdown3 (scenario_A 0 1))) /\
    cell "MarkDown4" v = Some (VFloat (in_markdown4 (scenario_A 0 1))) /\
    cell "MarkDown5" v = Some (VFloat (in_markdown5 (scenario_A 0 1))) /\
    cell "CPI" v = Some (VFloat (in_cpi (scenario_A 0 1))) /\
    cell "Unemployment" v = Some (VFloat (in_unemployment (scenario_A 0 1))).
Proof.
  eexists. split.
  - vm_compute. left. reflexivity.
  - apply (X14_widget_values_pass_through empty_caches sample_files (scenario_A 0 1)).
    + apply reach_start.
    + vm_compute. left. reflexivity.
Defined.

(** X15. The frames handed to the model do not depend on the day of the
    month of the date, nor on the store number box of the page without a
    table: changing either leaves every predict call as it was. *)
Theorem X15_day_and_number_box_are_ignored
    (model : option St.model) (stores_df : option DataFrame) (inp : inputs)
    (day' number' : Z) :
  predict_calls
    (fst (main model stores_df
            {| in_store_choice := in_store_choice inp;
               in_store_number := number';
               in_dept := in_dept inp;
               in_date := {| year := year (in_date inp);
                             month := month (in_date inp);
                             day := day' |};
               in_is_holiday := in_is_holiday inp;
               in_temperature := in_temperature inp;
               in_fuel_price := in_fuel_price inp;
               in_cpi := in_cpi inp;
               in_unemployment := in_unemployment inp;
               in_markdown1 := in_markdown1 inp;
               in_markdown2 := in_markdown2 inp;
               in_markdown3 := in_markdown3 inp;
               in_markdown4 := in_markdown4 inp;
               in_markdown5 := in_markdown5 inp;
               in_button := in_button inp |})) =
  predict_calls (fst (main model stores_df inp)).
Proof.
  unfold main. destruct stores_df as [df|].
  - rewrite !core_information_table. cbn [in_store_choice in_button].
    destruct (selectbox (valid_stores df) (in_store_choice inp)) as [s|].
    + destruct (s =? 0).
      * destruct model, (in_button inp); reflexivity.
      * destruct (find (fun r => Store r =? s) df);
          destruct model, (in_button inp); reflexivity.
    + destruct model, (in_button inp); reflexivity.
  - unfold core_information. cbn [in_button].
    destruct model, (in_button inp); reflexivity.
Qed.

(** ** The caches over the life of a process *)

Section Process.

Lemma script_keeps_model_cache (fs : files) (inp : inputs) (c : caches)
    (entry : list element * option model) :
  model_cache c = Some entry ->
  model_cache (script_caches fs inp c) = Some entry.
Proof.
  intros E. unfold script_caches, script. rewrite E.
  destruct entry as [out a]. simpl.
  destruct (cached (load_store_data fs) (data_cache c)) as [dc [out2 [t|e]]];
    [destruct (main a t inp)|]; reflexivity.
Qed.

Lemma script_keeps_data_cache (fs : files) (inp : inputs) (c : caches)
    (entry : list element * option DataFrame) :
  data_cache c = Some entry ->
  data_cache (script_caches fs inp c) = Some entry.
Proof.
  intros E. unfold script_caches, script.
  destruct (cached (load_model fs) (model_cache c)) as [mc [out1 [a|e]]].
  - rewrite E. destruct entry as [out t]. simpl.
    destruct (main a t inp). reflexivity.
  - simpl. exact E.
Qed.

Lemma reruns_keep_model_cache (steps : list (files * inputs)) (c : caches)
    (entry : list element * option model) :
  model_cache c = Some entry -> model_cache (reruns steps c) = Some entry.
Proof.
  revert c. induction steps as [|[fs inp] steps IH]; intros c E; simpl; [exact E|].
  apply IH, script_keeps_model_cache, E.
Qed.

Lemma reruns_keep_data_cache (steps : list (files * inputs)) (c : caches)
    (entry : list element * option DataFrame) :
  data_cache c = Some entry -> data_cache (reruns steps c) = Some entry.
Proof.
  revert c. induction steps as [|[fs inp] steps IH]; intros c E; simpl; [exact E|].
  apply IH, script_keeps_data_cache, E.
Qed.

Lemma reachable_reruns (steps : list (files * inputs)) (c : caches) :
  reachable c -> reachable (reruns steps c).
Proof.
  revert c. induction steps as [|[fs inp] steps IH]; intros c Hc; simpl; [exact Hc|].
  apply IH. apply reach_rerun. exact Hc.
Qed.

End Process.

(** X16. A load that failed for a missing file is final for the process:
    once a cache holds [None], then after any number of further reruns,
    whatever files are on disk by then, no rerun hands anything to the model
    or shows a frame, and the cache still holds that [None]. *)
Theorem X16_unavailable_is_permanent
    (c : caches) (out : list element)
    (steps : list (files * inputs)) (fs : files) (inp : inputs) :
  reachable c ->
  model_cache c = Some (out, None) \/ data_cache c = Some (out, None) ->
  predict_calls (script_out fs inp (reruns steps c)) = [] /\
  shown_frames (script_out fs inp (reruns steps c)) = [] /\
  (model_cache (script_caches fs inp (reruns steps c)) = Some (out, None) \/
   data_cache (script_caches fs inp (reruns steps c)) = Some (out, None)).
Proof.
  intros Hc Hnone.
  pose proof (reachable_reruns steps c Hc) as Hc'.
  assert (Hkept :
    model_cache (script_caches fs inp (reruns steps c)) = Some (out, None) \/
    data_cache (script_caches fs inp (reruns steps c)) = Some (out, None)).
  { destruct Hnone as [E|E]; [left|right].
    - apply script_keeps_model_cache, reruns_keep_model_cache, E.
    - apply script_keeps_data_cache, reruns_keep_data_cache, E. }
  assert (Hp : predict_calls (script_out fs inp (reruns steps c)) = []).
  { destruct (predict_calls (script_out fs inp (reruns steps c))) as [|v l] eqn:E;
      [reflexivity|].
    assert (Hin : In v (predict_calls (script_out fs inp (reruns steps c))))
      by (rewrite E; left; reflexivity).
    destruct (script_predict_inv fs inp _ v Hc' Hin)
      as (m & df & o1 & o2 & _ & _ & Em & Ed & _).
    destruct Hkept as [K|K]; congruence. }
  split; [exact Hp|]. split; [|exact Hkept].
  destruct (shown_frames (script_out fs inp (reruns steps c))) as [|w l] eqn:E;
    [reflexivity|].
  assert (Hin : In w (shown_frames (script_out fs inp (reruns steps c))))
    by (rewrite E; left; reflexivity).
  apply script_shown_are_predicted in Hin; [|exact Hc'].
  rewrite Hp in Hin. contradiction.
Qed.

Lemma X16_unavailable_is_permanent_witness :
  predict_calls
    (script_out sample_files (scenario_A 0 1)
       (reruns [(sample_files, scenario_A 1 1)]
          (script_caches {| model_file := Absent;
                            stores_file := Present sample_stores |}
             untouched empty_caches))) = [] /\
  shown_frames
    (script_out sample_files (scenario_A 0 1)
       (reruns [(sample_files, scenario_A 1 1)]
          (script_caches {| model_file := Absent;
                            stores_file := Present sample_stores |}
             untouched empty_caches))) = [] /\
  (model_cache
     (script_caches sample_files (scenario_A 0 1)
        (reruns [(sample_files, scenario_A 1 1)]
           (script_caches {| model_file := Absent;
                             stores_file := Present sample_stores |}
              untouched empty_caches)))
     = Some ([Error model_missing_msg], None) \/
   data_cache
     (script_caches sample_files (scenario_A 0 1)
        (reruns [(sample_files, scenario_A 1 1)]
           (script_caches {| model_file := Absent;
                             stores_file := Present sample_stores |}
              untouched empty_caches)))
     = Some ([Error model_missing_msg], None)).
Proof.
  apply (X16_unavailable_is_permanent
           (script_caches {| model_file := Absent;
                             stores_file := Present sample_stores |}
              untouched empty_caches)
           [Error model_missing_msg]
           [(sample_files, scenario_A 1 1)] sample_files (scenario_A 0 1)).
  - apply reach_rerun, reach_start.
  - left. reflexivity.
Defined.

(** X17. With both caches filled, a rerun does not look at the files at all:
    it leaves the caches as they are, replays what the two entries hold and
    runs the rest of the script on the cached values. *)
Theorem X17_filled_caches_ignore_files
    (fs : files) (inp : inputs) (c : caches)
    (o1 o2 : list element) (a : option model) (t : option DataFrame) :
  model_cache c = Some (o1, a) ->
  data_cache c = Some (o2, t) ->
  script fs inp c =
  (c, ((o1 ++ o2 ++ fst (main a t inp))%list, snd (main a t inp))).
Proof.
  intros Em Ed. destruct c as [mc dc]. simpl in Em, Ed. subst mc dc.
  unfold script. simpl. destruct (main a t inp). reflexivity.
Qed.

Lemma X17_filled_caches_ignore_files_witness :
  script unreadable_files (scenario_A 0 1)
    {| model_cache := Some ([], Some sample_model);
       data_cache := Some ([], Some sample_stores) |} =
  ({| model_cache := Some ([], Some sample_model);
      data_cache := Some ([], Some sample_stores) |},
   (([] ++ [] ++
     fst (main (Some sample_model) (Some sample_stores) (scenario_A 0 1)))%list,
    snd (main (Some sample_model) (Some sample_stores) (scenario_A 0 1)))).
Proof.
  apply (X17_filled_caches_ignore_files unreadable_files (scenario_A 0 1)
           {| model_cache := Some ([], Some sample_model);
              data_cache := Some ([], Some sample_stores) |});
    reflexivity.
Defined.

(** X18. In every cache state a process can reach, an entry that holds
    [None] replays exactly the loader's own error box and an entry that holds
    a handle replays nothing: no other element is ever stored. *)
Theorem X18_cache_entries_well_formed (c : caches) :
  reachable c ->
  (forall out a, model_cache c = Some (out, a) ->
     out = match a with
           | None => [Error model_missing_msg]
           | Some _ => []
           end) /\
  (forall out t, data_cache c = Some (out, t) ->
     out = match t with
           | None => [Error stores_missing_msg]
           | Some _ => []
           end).
Proof.
  intros Hc. destruct (reachable_inv c Hc) as [Hm Hd].
  unfold loader_entry in Hm, Hd. split.
  - intros out a E. rewrite E in Hm. destruct a; exact Hm.
  - intros out t E. rewrite E in Hd. destruct t; exact Hd.
Qed.

Lemma X18_cache_entries_well_formed_witness :
  (forall out a,
     model_cache (script_caches {| model_file := Absent;
                                   stores_file := Present sample_stores |}
                    untouched empty_caches) = Some (out, a) ->
     out = match a with
           | None => [Error model_missing_msg]
           | Some _ => []
           end) /\
  (forall out t,
     data_cache (script_caches {| model_file := Absent;
                                  stores_file := Present sample_stores |}
                   untouched empty_caches) = Some (out, t) ->
     out = match t with
           | None => [Error stores_missing_msg]
           | Some _ => []
           end).
Proof.
  apply (X18_cache_entries_well_formed
           (script_caches {| model_file := Absent;
                             stores_file := Present sample_stores |}
              untouched empty_caches)).
  apply reach_rerun, reach_start.
Defined.

(** X19. A rerun calls the model at most once, and not at all unless the
    button is pressed. *)
Theorem X19_at_most_one_call (c : caches) (fs : files) (inp : inputs) :
  reachable c ->
  (length (predict_calls (script_out fs inp c)) <= 1)%nat /\
  (in_button inp = false -> predict_calls (script_out fs inp c) = []).
Proof.
  intros Hc.
  destruct (predict_calls (script_out fs inp c)) as [|v l] eqn:E.
  - split; [simpl; lia|reflexivity].
  - assert (Hin : In v (predict_calls (script_out fs inp c)))
      by (rewrite E; left; reflexivity).
    destruct (script_predict_inv fs inp c v Hc Hin)
      as (m & df & o1 & o2 & s & r & _ & _ & Hb & _ & _ & _ & _ & Hp & _).
    rewrite E in Hp. injection Hp as ->.
    split; [simpl; lia|congruence].
Qed.

Lemma X19_at_most_one_call_witness :
  (length (predict_calls (script_out sample_files (scenario_A 0 1) empty_caches))
   <= 1)%nat /\
  (in_button (scenario_A 0 1) = false ->
   predict_calls (script_out sample_files (scenario_A 0 1) empty_caches) = []).
Proof.
  apply (X19_at_most_one_call empty_caches sample_files (scenario_A 0 1)).
  apply reach_start.
Defined.

(** X20. A table that lists store number 0 offers it in the select box, and
    picking it makes every press of the button end the run with [NameError]
    on [store_size], before anything reaches the model: [if store:] takes the
    number 0 for no pick. *)
Theorem X20_store_zero_cannot_be_predicted (df : DataFrame) (r : store_row) :
  In r df ->
  Store r = 0 ->
  exists choice,
    selectbox (valid_stores df) choice = Some 0 /\
    forall (m : model) (inp : inputs),
      in_store_choice inp = choice ->
      in_button inp = true ->
      snd (main (Some m) (Some df) inp) = Raise (NameError "store_size") /\
      predict_calls (fst (main (Some m) (Some df) inp)) = [].
Proof.
  intros Hr Hz.
  assert (Hin : In 0 (valid_stores df)) by (apply valid_stores_rows; eauto).
  destruct (selectbox_pick _ _ Hin) as [choice Hpick].
  exists choice. split; [exact Hpick|].
  intros m inp Hc Hb. apply store_zero_is_skipped; [|exact Hb].
  rewrite Hc. exact Hpick.
Qed.

Lemma X20_store_zero_cannot_be_predicted_witness :
  exists choice,
    selectbox (valid_stores [ {| Store := 5; Type_ := "B"; Size := 34875 |};
                              {| Store := 0; Type_ := "A"; Size := 1 |} ])
      choice = Some 0 /\
    forall (m : model) (inp : inputs),
      in_store_choice inp = choice ->
      in_button inp = true ->
      snd (main (Some m)
             (Some [ {| Store := 5; Type_ := "B"; Size := 34875 |};
                     {| Store := 0; Type_ := "A"; Size := 1 |} ]) inp)
        = Raise (NameError "store_size") /\
      predict_calls
        (fst (main (Some m)
                (Some [ {| Store := 5; Type_ := "B"; Size := 34875 |};
                        {| Store := 0; Type_ := "A"; Size := 1 |} ]) inp)) = [].
Proof.
  apply (X20_store_zero_cannot_be_predicted
           [ {| Store := 5; Type_ := "B"; Size := 34875 |};
             {| Store := 0; Type_ := "A"; Size := 1 |} ]
           {| Store := 0; Type_ := "A"; Size := 1 |}).
  - right. left. reflexivity.
  - reflexivity.
Defined.

(** X21. The first rerun of a fresh process, file by file: a file that is
    there is read and its content is what the rest of the script runs on and
    what the cache keeps; a missing file gives [None], cached as well, and its
    error box comes before everything else on the page, the model's before
    the table's. *)
Theorem X21_first_rerun (m : model) (t : DataFrame) (inp : inputs) :
  script {| model_file := Present m; stores_file := Present t |} inp empty_caches =
    ({| model_cache := Some ([], Some m); data_cache := Some ([], Some t) |},
     main (Some m) (Some t) inp) /\
  script {| model_file := Absent; stores_file := Present t |} inp empty_caches =
    ({| model_cache := Some ([Error model_missing_msg], None);
        data_cache := Some ([], Some t) |},
     (Error model_missing_msg :: fst (main None (Some t) inp),
      snd (main None (Some t) inp))) /\
  script {| model_file := Present m; stores_file := Absent |} inp empty_caches =
    ({| model_cache := Some ([], Some m);
        data_cache := Some ([Error stores_missing_msg], None) |},
     (Error stores_missing_msg :: fst (main (Some m) None inp),
      snd (main (Some m) None inp))) /\
  script {| model_file := Absent; stores_file := Absent |} inp empty_caches =
    ({| model_cache := Some ([Error model_missing_msg], None);
        data_cache := Some ([Error stores_missing_msg], None) |},
     (Error model_missing_msg :: Error stores_missing_msg
        :: fst (main None None inp),
      snd (main None None inp))).
Proof.
  unfold script. simpl.
  repeat split;
    match goal with
    | |- context [main ?a ?b inp] => destruct (main a b inp); reflexivity
    end.
Qed.
